(** * Toyota Stock Risk Central: the dashboard's navigation and lookups

    A shallow embedding of [app.py].  The script is re-run top to bottom on
    every user interaction; each run is modelled as a pure function of the
    loaded tables, the session's [view_date] and the values the sidebar
    widgets report.

    Modelling conventions.
    - A date is a calendar date (year, month, day) of the proleptic
      Gregorian calendar, the value a [Date] column parsed from a CSV of
      days holds (midnight timestamps).  The finite year range of the
      run-time date types is not part of the model: years range over [Z].
    - [calendar.monthrange], [datetime.replace], [timedelta] and dateutil's
      [relativedelta] are embedded from their library definitions, restricted
      to the fields the script sets ([months], [days]).
    - A risk score is an IEEE double in the program.  The navigation and
      lookup results hold for any score type and any three reductions
      ([mean], [max], [min]), which they take as parameters; [FloatStats]
      gives the reductions over binary64 floats.
    - pandas label lookups and Streamlit's selectbox raise Python
      exceptions; those are explicit in the [result] type. *)

From Stdlib Require Import ZArith Lia Bool List Sorted Ascii String Floats Uint63.
From stdpp Require Import base option list sorting strings gmap pretty.
Import ListNotations.

(** ** Exceptions *)

Inductive exn : Type :=
| KeyError
| IndexError
| TypeError.

(** [KeyError] and [IndexError] are the two subclasses of [LookupError]. *)
Definition is_LookupError (e : exn) : bool :=
  match e with
  | KeyError | IndexError => true
  | TypeError => false
  end.

Inductive result (A : Type) : Type :=
| Ok (a : A)
| Raise (e : exn).
Arguments Ok {A} a.
Arguments Raise {A} e.

Definition bind {A B : Type} (r : result A) (k : A -> result B) : result B :=
  match r with
  | Ok a => k a
  | Raise e => Raise e
  end.

Declare Scope result_scope.
Delimit Scope result_scope with result.
Notation "x <- r ;;; k" := (bind r (fun x => k))
  (at level 100, r at next level, right associativity) : result_scope.
Local Open Scope result_scope.

(** ** Calendar dates, [calendar] and [datetime] *)

Module DateTime.
Local Open Scope Z_scope.

Record date : Type := mkdate { year : Z; month : Z; day : Z }.

#[global] Instance date_eq_dec : EqDecision date.
Proof. solve_decision. Defined.

(** [calendar.isleap]. *)
Definition isleap (y : Z) : bool :=
  (y mod 4 =? 0) && (negb (y mod 100 =? 0) || (y mod 400 =? 0)).

(** [calendar.mdays], indexed by month number (entry 0 is a placeholder). *)
Definition mdays (m : Z) : Z :=
  match m with
  | 1 => 31 | 2 => 28 | 3 => 31 | 4 => 30 | 5 => 31 | 6 => 30
  | 7 => 31 | 8 => 31 | 9 => 30 | 10 => 31 | 11 => 30 | 12 => 31
  | _ => 0
  end.

(** Second component of [calendar.monthrange(year, month)]: the number of
    days of the month. *)
Definition monthrange (y m : Z) : Z :=
  mdays m + (if (m =? 2) && isleap y then 1 else 0).

(** The values [datetime] accepts for month and day. *)
Definition valid_date (d : date) : bool :=
  (1 <=? month d) && (month d <=? 12) &&
  (1 <=? day d) && (day d <=? monthrange (year d) (month d)).

(** Comparison of dates is the lexicographic comparison of
    (year, month, day). *)
Definition date_leb (a b : date) : bool :=
  (year a <? year b) ||
  ((year a =? year b) &&
   ((month a <? month b) || ((month a =? month b) && (day a <=? day b)))).

Definition date_ltb (a b : date) : bool :=
  (year a <? year b) ||
  ((year a =? year b) &&
   ((month a <? month b) || ((month a =? month b) && (day a <? day b)))).

Definition date_le (a b : date) : Prop := date_leb a b = true.
Definition date_lt (a b : date) : Prop := date_ltb a b = true.

#[global] Instance date_le_dec a b : Decision (date_le a b).
Proof. unfold date_le. apply _. Defined.
#[global] Instance date_lt_dec a b : Decision (date_lt a b).
Proof. unfold date_lt. apply _. Defined.

(** [d.replace(day=n)]. *)
Definition replace_day (d : date) (n : Z) : date :=
  mkdate (year d) (month d) n.

(** [d + timedelta(days=1)] and [d - timedelta(days=1)]. *)
Definition next_day (d : date) : date :=
  if day d <? monthrange (year d) (month d) then mkdate (year d) (month d) (day d + 1)
  else if month d <? 12 then mkdate (year d) (month d + 1) 1
  else mkdate (year d + 1) 1 1.

Definition prev_day (d : date) : date :=
  if 1 <? day d then mkdate (year d) (month d) (day d - 1)
  else if 1 <? month d then mkdate (year d) (month d - 1) (monthrange (year d) (month d - 1))
  else mkdate (year d - 1) 12 31.

(** [d + timedelta(days=n)]. *)
Definition add_days (d : date) (n : Z) : date :=
  match n with
  | Z0 => d
  | Zpos p => Pos.iter next_day d p
  | Zneg p => Pos.iter prev_day d p
  end.

(** dateutil's [relativedelta], with the two relative fields the script
    sets.  The constructor keeps [months] within -11..11. *)
Record relativedelta : Type := mkdelta { months : Z; days : Z }.

(** [relativedelta.__neg__]. *)
Definition delta_neg (r : relativedelta) : relativedelta :=
  mkdelta (- months r) (- days r).

(** The month arithmetic of [relativedelta.__radd__]: add the months and
    carry once into the year. *)
Definition shift_month (y m k : Z) : Z * Z :=
  if k =? 0 then (y, m)
  else
    let m' := m + k in
    if 12 <? m' then (y + 1, m' - 12)
    else if m' <? 1 then (y - 1, m' + 12)
    else (y, m').

(** [relativedelta.__radd__]: [dt + r].  The day is clipped to the length
    of the resulting month before the relative days are added. *)
Definition delta_radd (r : relativedelta) (dt : date) : date :=
  let '(y, m) := shift_month (year dt) (month dt) (months r) in
  let d := Z.min (monthrange y m) (day dt) in
  add_days (mkdate y m d) (days r).

(** [relativedelta.__rsub__]: [dt - r]. *)
Definition delta_rsub (r : relativedelta) (dt : date) : date :=
  delta_radd (delta_neg r) dt.

(** The position of a date's month on the line of all calendar months. *)
Definition month_index (d : date) : Z := 12 * year d + (month d - 1).

Definition first_day_of (y m : Z) : date := mkdate y m 1.
Definition last_day_of (y m : Z) : date := mkdate y m (monthrange y m).

End DateTime.
Export DateTime.

(** ** The monthly navigator (sidebar) *)

Module Navigator.
Local Open Scope Z_scope.

(** The "< Prev" button: [view_date -= relativedelta(months=1)]. *)
Definition prevMonth (view_date : date) : date :=
  delta_rsub (mkdelta 1 0) view_date.

(** The "Next >" button: [view_date += relativedelta(months=1)]. *)
Definition nextMonth (view_date : date) : date :=
  delta_radd (mkdelta 1 0) view_date.

Definition start_of_month (view_date : date) : date :=
  replace_day view_date 1.

Definition end_of_month (view_date : date) : date :=
  delta_rsub (mkdelta 0 1) (delta_radd (mkdelta 1 0) (start_of_month view_date)).

Definition monthBounds (view_date : date) : date * date :=
  (start_of_month view_date, end_of_month view_date).

End Navigator.
Export Navigator.

(** ** pandas: the forecast table and its label lookups *)

Section Pandas.
Context {score : Type}.

(** A row of [predicted_risk_scores.csv]. *)
Record row : Type := mkrow { Date : date; RiskScore_Percent : score }.

(** A DataFrame with the columns [Date] and [RiskScore_Percent], in file
    order. *)
Definition table : Type := list row.

Definition dates (T : table) : list date := map Date T.

(** The boolean mask [(Date >= start) & (Date <= end)]. *)
Definition in_window (start_ end_ d : date) : bool :=
  date_leb start_ d && date_leb d end_.

(** [forecast[(forecast['Date'] >= start) & (forecast['Date'] <= end)]['Date']]:
    the masked rows keep the order of the table. *)
Definition dates_in_month (forecast : table) (start_ end_ : date) : list date :=
  map Date (List.filter (fun r => in_window start_ end_ (Date r)) forecast).

(** [Series.min()] and [Series.max()] of a date column; [None] is the
    [NaT] of an empty column. *)
Definition date_min (a b : date) : date := if date_leb a b then a else b.
Definition date_max (a b : date) : date := if date_leb a b then b else a.

Definition series_min (l : list date) : option date :=
  match l with
  | [] => None
  | d :: ds => Some (fold_left date_min ds d)
  end.

Definition series_max (l : list date) : option date :=
  match l with
  | [] => None
  | d :: ds => Some (fold_left date_max ds d)
  end.

(** The rows of a frame indexed by [Date] that carry the label [d]. *)
Definition rows_at (T : table) (d : date) : table :=
  List.filter (fun r => bool_decide (Date r = d)) T.

(** [T.set_index('Date').loc[labels]] with a list of labels: the rows of
    every label, in the order of the labels; a label missing from the index
    raises [KeyError]. *)
Fixpoint loc_labels (T : table) (labels : list date) : result table :=
  match labels with
  | [] => Ok []
  | d :: ds =>
      match rows_at T d with
      | [] => Raise KeyError
      | rs => rest <- loc_labels T ds ;;; Ok (rs ++ rest)
      end
  end.

(** What [F.loc[d, 'RiskScore_Percent']] evaluates to: a scalar when the
    label occurs once, a Series when it occurs several times. *)
Inductive cell : Type :=
| Scalar (s : score)
| Series (l : list score).

Definition loc_cell (F : table) (d : date) : result cell :=
  match rows_at F d with
  | [] => Raise KeyError
  | [r] => Ok (Scalar (RiskScore_Percent r))
  | rs => Ok (Series (map RiskScore_Percent rs))
  end.

(** The f-string [f"{x:.1f}%"]: a float formats, a Series does not. *)
Definition format_1f (c : cell) : result score :=
  match c with
  | Scalar s => Ok s
  | Series _ => Raise TypeError
  end.

End Pandas.
Arguments row : clear implicits.
Arguments table : clear implicits.
Arguments cell : clear implicits.

(** ** Streamlit: the day selectbox *)

Module Streamlit.

(** The value the browser holds for a selectbox: the index chosen in the
    dropdown it displayed.  Streamlit identifies a widget by its
    parameters, so the value belongs to the option list it was chosen
    from. *)
Record widget_value : Type :=
  mkwidget { shown_options : list date; chosen_index : nat }.

(** The browser only reports an index of the dropdown it displayed. *)
Definition in_range (session : option widget_value) : Prop :=
  forall w, session = Some w -> (chosen_index w < length (shown_options w))%nat.

(** The day the user picked in the dropdown, if any. *)
Definition requested (session : option widget_value) : option date :=
  w ← session; shown_options w !! chosen_index w.

(** [st.selectbox(label, options)] with the default [index=0].  A value
    held for a selectbox with other options is not this widget's value. *)
Definition selectbox (session : option widget_value) (options : list date)
  : result (option date) :=
  let ui_value :=
    match session with
    | Some w => if bool_decide (shown_options w = options)
                then Some (chosen_index w) else None
    | None => None
    end in
  let idx := default 0%nat ui_value in
  match options with
  | [] => Ok None
  | _ :: _ =>
      match options !! idx with
      | Some d => Ok (Some d)
      | None => Raise IndexError
      end
  end.

End Streamlit.
Export Streamlit.

(** ** Section A: the forecast of the viewed month *)

Section Forecast.
Context {score : Type}.
(** [Series.mean()], [Series.max()] and [Series.min()] on the score column. *)
Context (mean smax smin : list score -> score).

(** What [ax_forecast] is given: the line and the optional vertical marker. *)
Record figure : Type :=
  mkfigure { line : list (date * score); axvline : option date }.

Inductive section_a : Type :=
| Warning
| Metrics (day_metric : option (date * score))
          (avg_risk max_risk min_risk : score)
          (fig_forecast : figure).

(** [forecast_df_filtered.index] against
    [forecast_df_filtered['RiskScore_Percent']]. *)
Definition seriesForPlot (forecast_df_filtered : table score) : list (date * score) :=
  map (fun r => (Date r, RiskScore_Percent r)) forecast_df_filtered.

(** The body of the [if] of section A. *)
Definition forecast_panel (forecast : table score) (dates_in_month : list date)
    (selected_day : option date) : result section_a :=
  forecast_df_filtered <- loc_labels forecast dates_in_month ;;;
  day_metric <-
    match selected_day with
    | Some d =>
        risk_score_day <- loc_cell forecast_df_filtered d ;;;
        value <- format_1f risk_score_day ;;;
        Ok (Some (d, value))
    | None => Ok None
    end ;;;
  let scores := map RiskScore_Percent forecast_df_filtered in
  Ok (Metrics day_metric (mean scores) (smax scores) (smin scores)
        (mkfigure (seriesForPlot forecast_df_filtered) selected_day)).

(** Section A for given candidates and selected day:
    [if 'forecast' in data_dict and not dates_in_month.empty: ... else: st.warning(...)]. *)
Definition forecast_section (forecast : option (table score))
    (dates_in_month : list date) (selected_day : option date) : result section_a :=
  match forecast with
  | Some T =>
      match dates_in_month with
      | [] => Ok Warning
      | _ :: _ => forecast_panel T dates_in_month selected_day
      end
  | None => Ok Warning
  end.

(** One run of the script down to section A.  Without a forecast table the
    sidebar defines neither [dates_in_month] nor [selected_day], and the
    guard of section A does not read them. *)
Definition run_forecast (forecast : option (table score)) (view_date : date)
    (session : option widget_value) : result section_a :=
  match forecast with
  | Some T =>
      let candidates :=
        dates_in_month T (start_of_month view_date) (end_of_month view_date) in
      selected_day <- selectbox session candidates ;;;
      forecast_section forecast candidates selected_day
  | None => Ok Warning
  end.

(** The (Date, score) sequence a run hands to [ax_forecast.plot], if it
    gets that far. *)
Definition chart_data (out : result section_a) : option (list (date * score)) :=
  match out with
  | Ok (Metrics _ _ _ _ fig) => Some (line fig)
  | Ok Warning => None
  | Raise _ => None
  end.

End Forecast.
Arguments figure : clear implicits.
Arguments section_a : clear implicits.

(** ** Loading and the historical risk explorer *)

Section Historical.
Context {score : Type}.

(** A rolling-volatility DataFrame: the [Date] column and one value column
    with its header. *)
Record vol_frame : Type :=
  mkvol { vol_column : string; vol_rows : list (date * score) }.

(** The artifacts on disk, as [read_csv] would parse them; a missing file
    has no entry. *)
Record disk : Type :=
  mkdisk { predicted_risk_scores_csv : option (table score);
           rolling_vol_csv : gmap string vol_frame }.

(** [data_dict]: the key ['forecast'] and the keys ['hist_<w>d']. *)
Record data_dict : Type :=
  mkdata { forecast : option (table score); hist : gmap string vol_frame }.

Definition windows : list N := [7; 30; 90; 250]%N.

(** [load_data()]: every source is optional; only files that exist get a
    key. *)
Definition load_data (files : disk) : data_dict :=
  mkdata (predicted_risk_scores_csv files)
    (fold_left
       (fun data w =>
          let filename := "rolling_vol_" +:+ pretty w +:+ "d.csv" in
          match rolling_vol_csv files !! filename with
          | Some df => <[ "hist_" +:+ pretty w +:+ "d" := df ]> data
          | None => data
          end)
       windows ∅).

Definition mapper : gmap string string :=
  list_to_map
    [ ("7-Day (Weekly)", "hist_7d"); ("30-Day (Monthly)", "hist_30d");
      ("90-Day (Quarterly)", "hist_90d"); ("250-Day (Annual)", "hist_250d") ].

(** [s.split(sep)] for a one-character separator. *)
Fixpoint split (sep : ascii) (s : string) : list string :=
  match s with
  | EmptyString => [EmptyString]
  | String c rest =>
      if bool_decide (c = sep) then EmptyString :: split sep rest
      else match split sep rest with
           | w :: ws => String c w :: ws
           | [] => [String c EmptyString]
           end
  end.

(** [f'RollingVolatility_{key.split("_")[1]}']. *)
Definition column_of (key : string) : result string :=
  match split "_"%char key !! 1%nat with
  | Some suffix => Ok ("RollingVolatility_" +:+ suffix)
  | None => Raise IndexError
  end.

(** [df[name]] on a volatility frame. *)
Definition get_column (df : vol_frame) (name : string) : result (list (date * score)) :=
  if bool_decide (vol_column df = name) then Ok (vol_rows df) else Raise KeyError.

(** A line of the historical chart. *)
Record series : Type := mkseries { label : string; points : list (date * score) }.

(** The loop [for option in historical_options], collecting the lines it
    plots. *)
Fixpoint resolve (data : data_dict) (historical_options : list string)
  : result (list series) :=
  match historical_options with
  | [] => Ok []
  | option :: rest =>
      match mapper !! option with
      | None => Raise KeyError
      | Some key =>
          match hist data !! key with
          | Some df_to_plot =>
              name <- column_of key ;;;
              values <- get_column df_to_plot name ;;;
              lines <- resolve data rest ;;;
              Ok (mkseries option values :: lines)
          | None => resolve data rest
          end
      end
  end.

(** The historical section: no chart at all for an empty selection,
    otherwise the chart with the resolved lines. *)
Definition historical_explorer (data : data_dict) (historical_options : list string)
  : result (option (list series)) :=
  match historical_options with
  | [] => Ok None
  | _ :: _ => lines <- resolve data historical_options ;;; Ok (Some lines)
  end.

End Historical.
Arguments vol_frame : clear implicits.
Arguments disk : clear implicits.
Arguments data_dict : clear implicits.
Arguments series : clear implicits.

(** ** Start-up, button presses and day ordinals *)

#[global] Instance exn_eq_dec : EqDecision exn.
Proof. solve_decision. Defined.

#[global] Instance result_eq_dec {A : Type} `{EqDecision A} : EqDecision (result A).
Proof. solve_decision. Defined.

Section Session.
Context {score : Type}.

(** The first run of a session:
    [if 'view_date' not in st.session_state: ...].  With a forecast table
    the view starts at the minimum of its dates ([None] is the [NaT] of an
    empty date column), without one at the current date. *)
Definition initial_view_date (data_forecast : option (table score)) (now : date)
  : option date :=
  match data_forecast with
  | Some T => series_min (dates T)
  | None => Some now
  end.

(** The rows of the viewed month: what the boolean mask of the sidebar
    keeps. *)
Definition month_rows (T : table score) (view_date : date) : table score :=
  List.filter
    (fun r => in_window (start_of_month view_date) (end_of_month view_date) (Date r)) T.

(** Whether the table of a selected option is in [data_dict]. *)
Definition is_loaded (data : data_dict score) (option : string) : bool :=
  match (mapper : gmap string string) !! option with
  | Some key => bool_decide (is_Some (hist data !! key))
  | None => false
  end.

End Session.

(** The two buttons of one run: [if st.button("< Prev"): ...] and then
    [if st.button("Next >"): ...]. *)
Definition navigate (prev next : bool) (view_date : date) : date :=
  let view_date := if prev then prevMonth view_date else view_date in
  if next then nextMonth view_date else view_date.

(** [view_date] after a sequence of runs, given the buttons pressed in each
    one. *)
Definition navigate_all (presses : list (bool * bool)) (view_date : date) : date :=
  fold_left (fun v p => navigate (fst p) (snd p) v) presses view_date.

(** The months the presses ask for: a Next counts +1, a Prev counts -1. *)
Definition net_months (presses : list (bool * bool)) : Z :=
  fold_right
    (fun (p : bool * bool) (n : Z) =>
       ((if snd p then 1 else 0) - (if fst p then 1 else 0) + n)%Z)
    0%Z presses.

Module Ordinal.
Local Open Scope Z_scope.

(** [datetime._days_before_year]: days before January 1 of year [y]. *)
Definition days_before_year (year : Z) : Z :=
  let y := year - 1 in
  y * 365 + y / 4 - y / 100 + y / 400.

(** [datetime._DAYS_BEFORE_MONTH]. *)
Definition DAYS_BEFORE_MONTH (m : Z) : Z :=
  match m with
  | 1 => 0 | 2 => 31 | 3 => 59 | 4 => 90 | 5 => 120 | 6 => 151
  | 7 => 181 | 8 => 212 | 9 => 243 | 10 => 273 | 11 => 304 | 12 => 334
  | _ => -1
  end.

(** [datetime._days_before_month]. *)
Definition days_before_month (y m : Z) : Z :=
  DAYS_BEFORE_MONTH m + (if (2 <? m) && isleap y then 1 else 0).

(** [date.toordinal()]: the proleptic Gregorian ordinal, the number
    [timedelta] arithmetic adds days to. *)
Definition toordinal (d : date) : Z :=
  days_before_year (year d) + days_before_month (year d) (month d) + day d.

End Ordinal.
Export Ordinal.

(** ** The monthly statistics over binary64 floats *)

Module FloatStats.

(** [x == x]: false exactly for NaN. *)
Definition is_number (x : float) : bool := PrimFloat.eqb x x.

(** pandas reductions skip NaN ([skipna=True]). *)
Definition dropna (l : list float) : list float := List.filter is_number l.

(** The number of values, as a float. *)
Definition count (l : list float) : float :=
  PrimFloat.of_uint63 (Uint63.of_Z (Z.of_nat (length l))).

(** [Series.mean()]: the rounded sum of the values divided by their number;
    [0/0], NaN, on an empty column.  The order in which NumPy adds a long
    column (pairwise blocks) is not modelled: the sum is taken left to
    right. *)
Definition Series_mean (l : list float) : float :=
  let values := dropna l in
  PrimFloat.div (fold_left PrimFloat.add values 0%float) (count values).

(** [np.maximum] and [np.minimum] on numbers: [a >= b ? a : b] and
    [a <= b ? a : b]. *)
Definition maximum (a b : float) : float := if PrimFloat.leb b a then a else b.
Definition minimum (a b : float) : float := if PrimFloat.leb a b then a else b.

(** [Series.max()] and [Series.min()]; NaN on an empty column. *)
Definition Series_max (l : list float) : float :=
  match dropna l with
  | [] => nan
  | x :: t => fold_left maximum t x
  end.

Definition Series_min (l : list float) : float :=
  match dropna l with
  | [] => nan
  | x :: t => fold_left minimum t x
  end.

(** [avg_risk], [max_risk] and [min_risk] of the filtered frame. *)
Definition monthlyStats (forecast_df_filtered : table float) : float * float * float :=
  let scores := map RiskScore_Percent forecast_df_filtered in
  (Series_mean scores, Series_max scores, Series_min scores).





End FloatStats.
Export FloatStats.

(** ** More sample data *)

Module Sample2.
Local Open Scope Z_scope.

(** A table in which February 3 occurs twice. *)
Definition duplicated : table Z :=
  [ mkrow (mkdate 2025 2 3) 20; mkrow (mkdate 2025 2 3) 21;
    mkrow (mkdate 2025 2 4) 25 ].

(** A loaded 7-day table whose value column has another header. *)
Definition misnamed : data_dict Z :=
  mkdata None (<[ "hist_7d" := mkvol "RollingVolatility_7" [] ]> ∅).

End Sample2.

(** ** Sample data *)

Module Sample.
Local Open Scope Z_scope.

(** A forecast table with rows in January and February 2025 (scores as
    integers, for computing). *)
Definition forecast : table Z :=
  [ mkrow (mkdate 2025 1 30) 10; mkrow (mkdate 2025 1 31) 12;
    mkrow (mkdate 2025 2 3) 20; mkrow (mkdate 2025 2 4) 25;
    mkrow (mkdate 2025 2 28) 40 ].

(** Placeholders for the three reductions. *)
Definition first_score (l : list Z) : Z := hd 0 l.

(** A disk with the 7-day and 90-day tables and no 30-day table. *)
Definition files : disk Z :=
  mkdisk (Some forecast)
    (<[ "rolling_vol_7d.csv" := mkvol "RollingVolatility_7d" [(mkdate 2025 1 30, 3)] ]>
       (<[ "rolling_vol_90d.csv" := mkvol "RollingVolatility_90d" [(mkdate 2025 1 30, 5)] ]>
          ∅)).

End Sample.

(** * Properties *)

(** ** The calendar *)

Module DateFacts.
Local Open Scope Z_scope.

Ltac zbool :=
  repeat match goal with
  | H : context [Z.ltb ?a ?b] |- _ => destruct (Z.ltb_spec a b)
  | H : context [Z.leb ?a ?b] |- _ => destruct (Z.leb_spec a b)
  | H : context [Z.eqb ?a ?b] |- _ => destruct (Z.eqb_spec a b)
  | |- context [Z.ltb ?a ?b] => destruct (Z.ltb_spec a b)
  | |- context [Z.leb ?a ?b] => destruct (Z.leb_spec a b)
  | |- context [Z.eqb ?a ?b] => destruct (Z.eqb_spec a b)
  end.

Ltac order_unfold :=
  unfold date_le, date_lt, date_leb, date_ltb in *; simpl in *.

Lemma valid_date_iff (d : date) :
  valid_date d = true <->
  1 <= month d <= 12 /\ 1 <= day d <= monthrange (year d) (month d).
Proof. unfold valid_date. rewrite !andb_true_iff, !Z.leb_le. lia. Qed.

Lemma monthrange_bounds (y m : Z) :
  1 <= m <= 12 -> 28 <= monthrange y m <= 31.
Proof.
  intros Hm. unfold monthrange.
  assert (Hcases : m = 1 \/ m = 2 \/ m = 3 \/ m = 4 \/ m = 5 \/ m = 6 \/
                   m = 7 \/ m = 8 \/ m = 9 \/ m = 10 \/ m = 11 \/ m = 12) by lia.
  destruct Hcases as [->|[->|[->|[->|[->|[->|[->|[->|[->|[->|[->| ->]]]]]]]]]]];
    simpl; try lia.
  destruct (isleap y); lia.
Qed.

Lemma date_le_refl (a : date) : date_le a a.
Proof. order_unfold. zbool; simpl; try lia; reflexivity. Qed.

Lemma date_le_trans (a b c : date) : date_le a b -> date_le b c -> date_le a c.
Proof.
  order_unfold. intros Hab Hbc.
  zbool; simpl in *; try discriminate; try reflexivity; lia.
Qed.

Lemma date_le_total (a b : date) : date_le a b \/ date_le b a.
Proof. order_unfold. zbool; simpl; auto; lia. Qed.

Lemma date_leb_false (a b : date) : date_leb a b = false -> date_le b a.
Proof.
  intros H. destruct (date_le_total a b) as [Hab|Hba]; [|exact Hba].
  unfold date_le in Hab. congruence.
Qed.

Lemma date_lt_irrefl (a : date) : ~ date_lt a a.
Proof. order_unfold. intros Hlt. zbool; simpl in *; try discriminate; lia. Qed.

Lemma date_lt_trans (a b c : date) : date_lt a b -> date_lt b c -> date_lt a c.
Proof.
  order_unfold. intros Hab Hbc.
  zbool; simpl in *; try discriminate; try reflexivity; lia.
Qed.

Lemma date_lt_neq (a b : date) : date_lt a b -> a <> b.
Proof. intros H ->. exact (date_lt_irrefl _ H). Qed.

(** A date between the first and the last day of a month lies in that month. *)
Lemma in_window_month (y m n : Z) (d : date) :
  in_window (mkdate y m 1) (mkdate y m n) d = true ->
  year d = y /\ month d = m.
Proof.
  unfold in_window. rewrite andb_true_iff. order_unfold. intros [H1 H2].
  zbool; simpl in *; try discriminate; lia.
Qed.

Lemma start_of_month_eq (d : date) :
  start_of_month d = first_day_of (year d) (month d).
Proof. reflexivity. Qed.

Lemma next_of_first (y m : Z) :
  1 <= m <= 12 ->
  delta_radd (mkdelta 1 0) (mkdate y m 1) =
  if m =? 12 then mkdate (y + 1) 1 1 else mkdate y (m + 1) 1.
Proof.
  intros Hm. unfold delta_radd, shift_month. simpl.
  zbool; simpl; try lia.
  - subst m. reflexivity.
  - rewrite Z.min_r; [reflexivity|]. pose proof (monthrange_bounds y (m + 1)). lia.
Qed.

Lemma end_of_month_eq (d : date) :
  1 <= month d <= 12 ->
  end_of_month d = last_day_of (year d) (month d).
Proof.
  intros Hm. unfold end_of_month, start_of_month, replace_day.
  rewrite next_of_first by exact Hm.
  unfold delta_rsub, delta_neg, delta_radd, shift_month, last_day_of. simpl.
  destruct (Z.eqb_spec (month d) 12) as [E|NE]; simpl.
  - rewrite E. unfold prev_day; simpl. f_equal; lia.
  - rewrite Z.min_r by (pose proof (monthrange_bounds (year d) (month d + 1)); lia).
    unfold prev_day; simpl. zbool; simpl; try lia.
    f_equal; try lia. f_equal; lia.
Qed.

Lemma nextMonth_eq (d : date) :
  1 <= month d <= 12 ->
  nextMonth d =
  if month d =? 12 then mkdate (year d + 1) 1 (Z.min (monthrange (year d + 1) 1) (day d))
  else mkdate (year d) (month d + 1) (Z.min (monthrange (year d) (month d + 1)) (day d)).
Proof.
  intros Hm. unfold nextMonth, delta_radd, shift_month. simpl.
  zbool; simpl; try lia.
  - replace (month d + 1 - 12) with 1 by lia. reflexivity.
  - reflexivity.
Qed.

Lemma prevMonth_eq (d : date) :
  1 <= month d <= 12 ->
  prevMonth d =
  if month d =? 1 then mkdate (year d - 1) 12 (Z.min (monthrange (year d - 1) 12) (day d))
  else mkdate (year d) (month d - 1) (Z.min (monthrange (year d) (month d - 1)) (day d)).
Proof.
  intros Hm. unfold prevMonth, delta_rsub, delta_neg, delta_radd, shift_month. simpl.
  zbool; simpl; try lia.
  - rewrite e. reflexivity.
  - reflexivity.
Qed.

(** What one month step does to a valid date. *)
Lemma nextMonth_facts (d : date) :
  valid_date d = true ->
  month_index (nextMonth d) = month_index d + 1 /\
  valid_date (nextMonth d) = true /\
  day (nextMonth d) =
    Z.min (day d) (monthrange (year (nextMonth d)) (month (nextMonth d))).
Proof.
  intros Hv. apply valid_date_iff in Hv. destruct Hv as [Hm Hd].
  rewrite (nextMonth_eq d Hm). destruct d as [y m dd]. simpl in *.
  pose proof (monthrange_bounds (y + 1) 1) as R1.
  pose proof (monthrange_bounds y (m + 1)) as R3.
  unfold month_index.
  destruct (Z.eqb_spec m 12) as [E12|N12];
    simpl; rewrite ?valid_date_iff; simpl; repeat split; lia.
Qed.

Lemma prevMonth_facts (d : date) :
  valid_date d = true ->
  month_index (prevMonth d) = month_index d - 1 /\
  valid_date (prevMonth d) = true /\
  day (prevMonth d) =
    Z.min (day d) (monthrange (year (prevMonth d)) (month (prevMonth d))).
Proof.
  intros Hv. apply valid_date_iff in Hv. destruct Hv as [Hm Hd].
  rewrite (prevMonth_eq d Hm). destruct d as [y m dd]. simpl in *.
  pose proof (monthrange_bounds (y - 1) 12) as R2.
  pose proof (monthrange_bounds y (m - 1)) as R4.
  unfold month_index.
  destruct (Z.eqb_spec m 1) as [E1|N1];
    simpl; rewrite ?valid_date_iff; simpl; repeat split; lia.
Qed.

(** Two valid dates with the same month index are in the same month. *)
Lemma month_index_inj (a b : date) :
  valid_date a = true -> valid_date b = true ->
  month_index a = month_index b -> year a = year b /\ month a = month b.
Proof.
  rewrite !valid_date_iff. unfold month_index. lia.
Qed.

Lemma monthBounds_same_month (a b : date) :
  valid_date a = true -> valid_date b = true ->
  year a = year b -> month a = month b -> monthBounds a = monthBounds b.
Proof.
  rewrite !valid_date_iff. intros [Ha _] [Hb _] Hy Hm.
  unfold monthBounds. rewrite !end_of_month_eq, !start_of_month_eq by assumption.
  rewrite Hy, Hm. reflexivity.
Qed.

End DateFacts.
Import DateFacts.

(** ** The monthly navigator *)

Section NavigatorProperties.
Local Open Scope Z_scope.

(** C8. For every calendar date [view_date], [monthBounds] returns the first
    and the last calendar day of the month containing [view_date]: the first
    component is day 1 of that month, the second is its last valid day (the
    day after it is not a day of the month), [view_date] lies between the
    two, and the first component is at most the second. *)
Theorem monthBounds_first_last (view_date : date) :
  valid_date view_date = true ->
  monthBounds view_date =
    (first_day_of (year view_date) (month view_date),
     last_day_of (year view_date) (month view_date)) /\
  valid_date (fst (monthBounds view_date)) = true /\
  valid_date (snd (monthBounds view_date)) = true /\
  valid_date (replace_day view_date (day (snd (monthBounds view_date)) + 1)) = false /\
  date_le (fst (monthBounds view_date)) view_date /\
  date_le view_date (snd (monthBounds view_date)) /\
  date_le (fst (monthBounds view_date)) (snd (monthBounds view_date)).
Proof.
  intros Hv. apply valid_date_iff in Hv. destruct Hv as [Hm Hd].
  pose proof (monthrange_bounds (year view_date) (month view_date) Hm) as Hr.
  unfold monthBounds. rewrite end_of_month_eq, start_of_month_eq by exact Hm.
  unfold first_day_of, last_day_of, replace_day. simpl.
  repeat split.
  - apply valid_date_iff. simpl. lia.
  - apply valid_date_iff. simpl. lia.
  - apply not_true_is_false. rewrite valid_date_iff. simpl. lia.
  - order_unfold. zbool; simpl; try reflexivity; lia.
  - order_unfold. zbool; simpl; try reflexivity; lia.
  - order_unfold. zbool; simpl; try reflexivity; lia.
Qed.

(** C1, as the code has it. Prev and Next move [view_date] by exactly one
    calendar month and keep its day of the month, clipped to the length of
    the resulting month; the result is a valid date. The first day of the
    resulting month is what [start_of_month] derives from it. From any date
    in December of year Y, Next yields the same day of January of year Y+1,
    whose month starts on January 1 of Y+1. *)
Theorem month_step_keeps_clipped_day (view_date : date) :
  valid_date view_date = true ->
  month_index (nextMonth view_date) = month_index view_date + 1 /\
  month_index (prevMonth view_date) = month_index view_date - 1 /\
  valid_date (nextMonth view_date) = true /\
  valid_date (prevMonth view_date) = true /\
  day (nextMonth view_date) =
    Z.min (day view_date)
      (monthrange (year (nextMonth view_date)) (month (nextMonth view_date))) /\
  day (prevMonth view_date) =
    Z.min (day view_date)
      (monthrange (year (prevMonth view_date)) (month (prevMonth view_date))) /\
  start_of_month (nextMonth view_date) =
    first_day_of (year (nextMonth view_date)) (month (nextMonth view_date)) /\
  start_of_month (prevMonth view_date) =
    first_day_of (year (prevMonth view_date)) (month (prevMonth view_date)) /\
  (month view_date = 12 ->
   nextMonth view_date = mkdate (year view_date + 1) 1 (day view_date) /\
   start_of_month (nextMonth view_date) = mkdate (year view_date + 1) 1 1).
Proof.
  intros Hv.
  destruct (nextMonth_facts view_date Hv) as (Hn & Vn & Dn).
  destruct (prevMonth_facts view_date Hv) as (Hp & Vp & Dp).
  repeat (split; [assumption || reflexivity|]).
  intros E12. apply valid_date_iff in Hv. destruct Hv as [Hm Hd].
  rewrite (nextMonth_eq view_date Hm), E12. simpl.
  rewrite E12 in Hd. change (monthrange (year view_date) 12) with 31 in Hd.
  change (monthrange (year view_date + 1) 1) with 31.
  rewrite Z.min_r by lia. split; reflexivity.
Qed.

(** C10. Prev followed by Next, and Next followed by Prev, come back to the
    month and year they started from, so the displayed month window is the
    same; the day of the month never grows, and it shrinks when the original
    day does not exist in the intermediate month: March 31 goes to
    February 28 and back to March 28. *)
Theorem prev_next_restores_month (view_date : date) :
  valid_date view_date = true ->
  year (nextMonth (prevMonth view_date)) = year view_date /\
  month (nextMonth (prevMonth view_date)) = month view_date /\
  year (prevMonth (nextMonth view_date)) = year view_date /\
  month (prevMonth (nextMonth view_date)) = month view_date /\
  monthBounds (nextMonth (prevMonth view_date)) = monthBounds view_date /\
  monthBounds (prevMonth (nextMonth view_date)) = monthBounds view_date /\
  day (nextMonth (prevMonth view_date)) <= day view_date /\
  day (prevMonth (nextMonth view_date)) <= day view_date /\
  prevMonth (mkdate 2025 3 31) = mkdate 2025 2 28 /\
  nextMonth (prevMonth (mkdate 2025 3 31)) = mkdate 2025 3 28.
Proof.
  intros Hv.
  destruct (nextMonth_facts view_date Hv) as (Hn & Vn & Dn).
  destruct (prevMonth_facts view_date Hv) as (Hp & Vp & Dp).
  destruct (nextMonth_facts (prevMonth view_date) Vp) as (Hnp & Vnp & Dnp).
  destruct (prevMonth_facts (nextMonth view_date) Vn) as (Hpn & Vpn & Dpn).
  assert (Enp : month_index (nextMonth (prevMonth view_date)) = month_index view_date)
    by lia.
  assert (Epn : month_index (prevMonth (nextMonth view_date)) = month_index view_date)
    by lia.
  destruct (month_index_inj _ _ Vnp Hv Enp) as [Y1 M1].
  destruct (month_index_inj _ _ Vpn Hv Epn) as [Y2 M2].
  repeat split; try assumption; try lia.
  - apply monthBounds_same_month; assumption.
  - apply monthBounds_same_month; assumption.
Qed.

End NavigatorProperties.

(** ** The forecast table *)

Section TableFacts.
Context {score : Type}.
Implicit Types (T F : table score) (d : date) (r : row score).

Lemma dates_in_month_filter T (s e : date) :
  dates_in_month T s e = List.filter (in_window s e) (dates T).
Proof.
  unfold dates_in_month, dates. induction T as [|r T IH]; simpl; [reflexivity|].
  destruct (in_window s e (Date r)); simpl; rewrite IH; reflexivity.
Qed.

Lemma filter_sublist {A : Type} (f : A -> bool) (l : list A) :
  sublist (List.filter f l) l.
Proof.
  induction l as [|a l IH]; simpl; [constructor|].
  destruct (f a); by constructor.
Qed.

Lemma filter_StronglySorted {A : Type} (R : A -> A -> Prop) (f : A -> bool) (l : list A) :
  StronglySorted R l -> StronglySorted R (List.filter f l).
Proof.
  induction 1 as [|a l Hs IH Hall]; simpl; [constructor|].
  destruct (f a); [|exact IH].
  constructor; [exact IH|].
  rewrite List.Forall_forall in *. intros x Hx. apply Hall.
  apply filter_In in Hx. tauto.
Qed.

Lemma fold_date_min_le (l : list date) (a : date) :
  date_le (fold_left date_min l a) a /\
  forall x, In x l -> date_le (fold_left date_min l a) x.
Proof.
  revert a. induction l as [|b l IH]; intros a; simpl.
  - split; [apply date_le_refl|tauto].
  - destruct (IH (date_min a b)) as [H1 H2].
    assert (Ha : date_le (date_min a b) a).
    { unfold date_min. destruct (date_leb a b) eqn:E;
        [apply date_le_refl|by apply date_leb_false]. }
    assert (Hb : date_le (date_min a b) b).
    { unfold date_min. destruct (date_leb a b) eqn:E;
        [exact E|apply date_le_refl]. }
    split; [eapply date_le_trans; eassumption|].
    intros x [<-|Hx]; [eapply date_le_trans; eassumption|by apply H2].
Qed.

Lemma fold_date_max_ge (l : list date) (a : date) :
  date_le a (fold_left date_max l a) /\
  forall x, In x l -> date_le x (fold_left date_max l a).
Proof.
  revert a. induction l as [|b l IH]; intros a; simpl.
  - split; [apply date_le_refl|tauto].
  - destruct (IH (date_max a b)) as [H1 H2].
    assert (Ha : date_le a (date_max a b)).
    { unfold date_max. destruct (date_leb a b) eqn:E;
        [exact E|apply date_le_refl]. }
    assert (Hb : date_le b (date_max a b)).
    { unfold date_max. destruct (date_leb a b) eqn:E;
        [apply date_le_refl|by apply date_leb_false]. }
    split; [eapply date_le_trans; eassumption|].
    intros x [<-|Hx]; [eapply date_le_trans; eassumption|by apply H2].
Qed.

Lemma series_min_le (l : list date) (lo x : date) :
  series_min l = Some lo -> In x l -> date_le lo x.
Proof.
  destruct l as [|a l]; simpl; [discriminate|].
  intros [= <-]. destruct (fold_date_min_le l a) as [H1 H2].
  intros [<-|Hx]; [exact H1|exact (H2 x Hx)].
Qed.

Lemma series_max_ge (l : list date) (hi x : date) :
  series_max l = Some hi -> In x l -> date_le x hi.
Proof.
  destruct l as [|a l]; simpl; [discriminate|].
  intros [= <-]. destruct (fold_date_max_ge l a) as [H1 H2].
  intros [<-|Hx]; [exact H1|exact (H2 x Hx)].
Qed.

Lemma filter_all {A : Type} (f : A -> bool) (l : list A) :
  (forall x, In x l -> f x = true) -> List.filter f l = l.
Proof.
  induction l as [|a l IH]; simpl; intros H; [reflexivity|].
  rewrite (H a) by auto. f_equal. apply IH. auto.
Qed.

Lemma filter_none {A : Type} (f : A -> bool) (l : list A) :
  (forall x, In x l -> f x = false) -> List.filter f l = [].
Proof.
  induction l as [|a l IH]; simpl; intros H; [reflexivity|].
  rewrite (H a) by auto. apply IH. auto.
Qed.

Lemma in_window_iff (s e d : date) :
  in_window s e d = true <-> date_le s d /\ date_le d e.
Proof. unfold in_window, date_le. apply andb_true_iff. Qed.

(** The rows carrying a label that the index does not hold, holds once. *)
Lemma rows_at_absent T d : ~ In d (dates T) -> rows_at T d = [].
Proof.
  intros Hn. apply filter_none. intros r Hr.
  apply bool_decide_eq_false. intros E. apply Hn. subst d.
  unfold dates. apply in_map. exact Hr.
Qed.

Lemma rows_at_present T d : In d (dates T) -> rows_at T d <> [].
Proof.
  unfold dates. rewrite in_map_iff. intros (r & E & Hr) Hnil.
  assert (Hin : In r (rows_at T d)).
  { apply filter_In. split; [exact Hr|]. by apply bool_decide_eq_true. }
  rewrite Hnil in Hin. exact Hin.
Qed.

Lemma rows_at_unique T r :
  NoDup (dates T) -> In r T -> rows_at T (Date r) = [r].
Proof.
  unfold dates. induction T as [|a T IH]; simpl; intros Hnd Hin; [tauto|].
  apply NoDup_cons in Hnd. destruct Hnd as [Hna Hnd].
  rewrite list_elem_of_In in Hna.
  destruct Hin as [->|Hin].
  - rewrite bool_decide_eq_true_2 by reflexivity. f_equal.
    apply rows_at_absent. exact Hna.
  - rewrite bool_decide_eq_false_2; [by apply IH|].
    intros E. apply Hna. rewrite E. apply in_map. exact Hin.
Qed.

Lemma loc_labels_unique T (labels : list date) :
  NoDup (dates T) ->
  (forall d, In d labels -> In d (dates T)) ->
  exists F, loc_labels T labels = Ok F /\ dates F = labels /\
            forall r, In r F -> In r T.
Proof.
  intros Hnd. induction labels as [|d ds IH]; intros Hin.
  - exists []. simpl. repeat split. tauto.
  - destruct IH as (F & HF & HdF & HinF); [intros x Hx; apply Hin; by right|].
    assert (Hd : In d (dates T)) by (apply Hin; by left).
    unfold dates in Hd. apply in_map_iff in Hd. destruct Hd as (r & <- & Hr).
    exists (r :: F). simpl.
    rewrite (rows_at_unique T r Hnd Hr), HF. simpl.
    repeat split; [by rewrite HdF|].
    intros x [<-|Hx]; [exact Hr|by apply HinF].
Qed.

Lemma loc_cell_unique F r :
  NoDup (dates F) -> In r F ->
  loc_cell F (Date r) = Ok (Scalar (RiskScore_Percent r)).
Proof.
  intros Hnd Hr. unfold loc_cell. by rewrite (rows_at_unique F r Hnd Hr).
Qed.

Lemma forecast_section_metrics (mean smax smin : list score -> score)
    T (candidates : list date) :
  NoDup (dates T) ->
  (forall d, In d candidates -> In d (dates T)) ->
  exists F, loc_labels T candidates = Ok F /\ dates F = candidates /\
    forall sel, NoDup candidates ->
      (forall d, sel = Some d -> In d candidates) ->
      candidates <> [] ->
      exists m, forecast_section mean smax smin (Some T) candidates sel =
        Ok (Metrics m (mean (map RiskScore_Percent F))
              (smax (map RiskScore_Percent F)) (smin (map RiskScore_Percent F))
              (mkfigure (seriesForPlot F) sel)).
Proof.
  intros HndT Hincl.
  destruct (loc_labels_unique T candidates HndT Hincl) as (F & HF & HdF & HinF).
  exists F. split; [exact HF|]. split; [exact HdF|].
  intros sel HndC Hsel Hne. destruct candidates as [|c cs]; [congruence|].
  unfold forecast_section, forecast_panel. rewrite HF. simpl.
  destruct sel as [d|]; [|by eexists].
  assert (Hd : In d (dates F)) by (rewrite HdF; by apply Hsel).
  unfold dates in Hd. apply in_map_iff in Hd. destruct Hd as (r & <- & Hr).
  rewrite loc_cell_unique; [simpl; by eexists| |exact Hr].
  by rewrite HdF.
Qed.

End TableFacts.

Section TableProperties.
Context {score : Type}.
Context (mean smax smin : list score -> score).

(** C2. [datesInRange(T, start, end)] is the date column of [T] filtered by
    [start <= d <= end]: it holds exactly the dates of [T] in the range, as
    a subsequence of [T]'s dates, strictly ascending as [T] is; it is the
    empty sequence (a plain value) when no date is in the range; and the
    range from the minimum to the maximum date of [T] gives back all dates
    of [T]. *)
Theorem dates_in_month_exact (T : table score) (start_ end_ : date) :
  StronglySorted date_lt (dates T) ->
  dates_in_month T start_ end_ = List.filter (in_window start_ end_) (dates T) /\
  (forall d, In d (dates_in_month T start_ end_) <->
             In d (dates T) /\ date_le start_ d /\ date_le d end_) /\
  sublist (dates_in_month T start_ end_) (dates T) /\
  StronglySorted date_lt (dates_in_month T start_ end_) /\
  ((forall d, In d (dates T) -> ~ (date_le start_ d /\ date_le d end_)) ->
   dates_in_month T start_ end_ = []) /\
  (forall lo hi, series_min (dates T) = Some lo -> series_max (dates T) = Some hi ->
                 dates_in_month T lo hi = dates T) /\
  (T = [] -> dates_in_month T start_ end_ = dates T).
Proof.
  intros Hsorted. rewrite !dates_in_month_filter.
  split; [reflexivity|]. split.
  { intros d. rewrite filter_In, in_window_iff. tauto. }
  split; [apply filter_sublist|].
  split; [by apply filter_StronglySorted|].
  split.
  { intros Hnone. apply filter_none. intros d Hd.
    apply not_true_is_false. rewrite in_window_iff. by apply Hnone. }
  split.
  { intros lo hi Hlo Hhi. rewrite dates_in_month_filter. apply filter_all.
    intros d Hd. apply in_window_iff. split.
    - eapply series_min_le; eassumption.
    - eapply series_max_ge; eassumption. }
  intros ->. reflexivity.
Qed.

(** C5. On a table with one row per date, [dayScore(table, day)] is the
    score stored in the row of that date when the date is in the index, and
    it raises exactly when the date is not in the index; what it raises is
    [KeyError], a [LookupError]. *)
Theorem loc_cell_present_or_KeyError (T : table score) (d : date) :
  NoDup (dates T) ->
  (forall r, In r T -> Date r = d ->
             loc_cell T d = Ok (Scalar (RiskScore_Percent r))) /\
  (In d (dates T) ->
   exists r, In r T /\ Date r = d /\
             loc_cell T d = Ok (Scalar (RiskScore_Percent r))) /\
  (forall e, loc_cell T d = Raise e <-> e = KeyError /\ ~ In d (dates T)) /\
  is_LookupError KeyError = true.
Proof.
  intros Hnd.
  assert (Hpresent : forall r, In r T -> Date r = d ->
            loc_cell T d = Ok (Scalar (RiskScore_Percent r))).
  { intros r Hr <-. by apply loc_cell_unique. }
  split; [exact Hpresent|]. split.
  { unfold dates. rewrite in_map_iff. intros (r & E & Hr). exists r. auto. }
  split; [|reflexivity].
  intros e. split.
  - intros Hraise. destruct (in_dec date_eq_dec d (dates T)) as [Hin|Hout].
    + unfold dates in Hin. apply in_map_iff in Hin. destruct Hin as (r & E & Hr).
      rewrite (Hpresent r Hr E) in Hraise. discriminate.
    + unfold loc_cell in Hraise. rewrite (rows_at_absent T d Hout) in Hraise.
      by injection Hraise as <-.
  - intros [-> Hout]. unfold loc_cell. by rewrite (rows_at_absent T d Hout).
Qed.

(** C4. When the viewed month holds no forecast row, a run shows the warning
    of section A and nothing else of it: the run raises nothing and computes
    no statistic. The same holds when there is no forecast table, and for
    section A on an empty candidate set whatever the selected day. *)
Theorem empty_month_warns (data_forecast : option (table score)) (view_date : date)
    (session : option widget_value) :
  (forall T, data_forecast = Some T ->
     dates_in_month T (start_of_month view_date) (end_of_month view_date) = []) ->
  run_forecast mean smax smin data_forecast view_date session = Ok Warning /\
  forall selected_day,
    forecast_section mean smax smin data_forecast [] selected_day = Ok Warning.
Proof.
  intros Hempty. split.
  - destruct data_forecast as [T|]; [|reflexivity].
    unfold run_forecast. rewrite (Hempty T eq_refl). reflexivity.
  - intros sel. destruct data_forecast; reflexivity.
Qed.

(** C9. The line handed to the forecast chart does not depend on the
    selected day: for any two admissible choices (no selection, or one of
    the candidates) the runs plot the same (Date, score) sequence, the rows
    of the candidates in their order; the selected day only sets the
    vertical marker. *)
Theorem selected_day_is_annotation (T : table score) (candidates : list date)
    (sel1 sel2 : option date) :
  NoDup (dates T) ->
  NoDup candidates ->
  (forall d, In d candidates -> In d (dates T)) ->
  (forall d, sel1 = Some d -> In d candidates) ->
  (forall d, sel2 = Some d -> In d candidates) ->
  chart_data (forecast_section mean smax smin (Some T) candidates sel1) =
  chart_data (forecast_section mean smax smin (Some T) candidates sel2) /\
  (candidates <> [] ->
   exists F m1 m2,
     loc_labels T candidates = Ok F /\ dates F = candidates /\
     forecast_section mean smax smin (Some T) candidates sel1 =
       Ok (Metrics m1 (mean (map RiskScore_Percent F)) (smax (map RiskScore_Percent F))
             (smin (map RiskScore_Percent F)) (mkfigure (seriesForPlot F) sel1)) /\
     forecast_section mean smax smin (Some T) candidates sel2 =
       Ok (Metrics m2 (mean (map RiskScore_Percent F)) (smax (map RiskScore_Percent F))
             (smin (map RiskScore_Percent F)) (mkfigure (seriesForPlot F) sel2))).
Proof.
  intros HndT HndC Hincl Hs1 Hs2.
  destruct (forecast_section_metrics mean smax smin T candidates HndT Hincl)
    as (F & HF & HdF & Hsec).
  destruct (decide (candidates = [])) as [->|Hne].
  - split; [reflexivity|congruence].
  - destruct (Hsec sel1 HndC Hs1 Hne) as [m1 E1].
    destruct (Hsec sel2 HndC Hs2 Hne) as [m2 E2].
    split; [by rewrite E1, E2|].
    intros _. exists F, m1, m2. auto.
Qed.

End TableProperties.

(** ** The day selector *)

Section SelectorProperties.
Context {score : Type}.

Lemma selectbox_fresh (candidates : list date) :
  selectbox None candidates = Ok (head candidates).
Proof. destruct candidates; reflexivity. Qed.

Lemma selectbox_other_options (w : widget_value) (candidates : list date) :
  shown_options w <> candidates ->
  selectbox (Some w) candidates = Ok (head candidates).
Proof.
  intros Hne. unfold selectbox. rewrite bool_decide_eq_false_2 by exact Hne.
  destruct candidates; reflexivity.
Qed.

Lemma selectbox_same_options (w : widget_value) (r : date) :
  requested (Some w) = Some r ->
  selectbox (Some w) (shown_options w) = Ok (Some r).
Proof.
  destruct w as [shown i]. simpl. intros Hr. unfold selectbox. simpl.
  rewrite bool_decide_eq_true_2 by reflexivity. simpl.
  destruct shown as [|c cs]; [by rewrite lookup_nil in Hr|].
  by rewrite Hr.
Qed.

(** Two month windows of one table that share a date are the same window. *)
Lemma window_shared_date (T : table score) (v1 v2 r : date) :
  valid_date v1 = true -> valid_date v2 = true ->
  In r (dates_in_month T (start_of_month v1) (end_of_month v1)) ->
  In r (dates_in_month T (start_of_month v2) (end_of_month v2)) ->
  dates_in_month T (start_of_month v1) (end_of_month v1) =
  dates_in_month T (start_of_month v2) (end_of_month v2).
Proof.
  rewrite !valid_date_iff. intros [Hm1 _] [Hm2 _].
  rewrite !end_of_month_eq, !start_of_month_eq by assumption.
  rewrite !dates_in_month_filter, !filter_In.
  unfold first_day_of, last_day_of. intros [_ H1] [_ H2].
  apply in_window_month in H1, H2.
  destruct H1 as [Y1 M1], H2 as [Y2 M2].
  rewrite <- Y1, <- M1, <- Y2, <- M2. reflexivity.
Qed.

(** C7. The widget is shown the candidates of the viewed month. When the
    day the user picked is one of them, the selectbox returns it; when it is
    not (it was picked in another month's dropdown), or when nothing was
    picked, the selectbox returns the first candidate; on an empty candidate
    set it returns no date, without raising. *)
Theorem selectbox_requested_or_first (T : table score) (shown_view view_date : date)
    (i : nat) (r : date) :
  valid_date shown_view = true ->
  valid_date view_date = true ->
  requested
    (Some (mkwidget
             (dates_in_month T (start_of_month shown_view) (end_of_month shown_view)) i))
    = Some r ->
  (In r (dates_in_month T (start_of_month view_date) (end_of_month view_date)) ->
   selectbox
     (Some (mkwidget
              (dates_in_month T (start_of_month shown_view) (end_of_month shown_view)) i))
     (dates_in_month T (start_of_month view_date) (end_of_month view_date))
   = Ok (Some r)) /\
  (~ In r (dates_in_month T (start_of_month view_date) (end_of_month view_date)) ->
   selectbox
     (Some (mkwidget
              (dates_in_month T (start_of_month shown_view) (end_of_month shown_view)) i))
     (dates_in_month T (start_of_month view_date) (end_of_month view_date))
   = Ok (head (dates_in_month T (start_of_month view_date) (end_of_month view_date)))) /\
  selectbox None (dates_in_month T (start_of_month view_date) (end_of_month view_date))
   = Ok (head (dates_in_month T (start_of_month view_date) (end_of_month view_date))) /\
  (dates_in_month T (start_of_month view_date) (end_of_month view_date) = [] ->
   forall session,
     selectbox session
       (dates_in_month T (start_of_month view_date) (end_of_month view_date))
     = Ok None).
Proof.
  intros Hv1 Hv2 Hreq.
  set (shown := dates_in_month T (start_of_month shown_view) (end_of_month shown_view)) in *.
  set (candidates := dates_in_month T (start_of_month view_date) (end_of_month view_date)).
  assert (Hshown : In r shown).
  { simpl in Hreq. apply list_elem_of_In. eapply list_elem_of_lookup_2. exact Hreq. }
  split; [|split; [|split]].
  - intros Hin.
    assert (E : shown = candidates) by (by apply (window_shared_date T _ _ r)).
    rewrite <- E. by apply (selectbox_same_options (mkwidget shown i)).
  - intros Hout. apply selectbox_other_options. simpl. intros E. apply Hout.
    by rewrite <- E.
  - apply selectbox_fresh.
  - intros -> session. reflexivity.
Qed.

(** What the selectbox returns is one of its options. *)
Lemma selectbox_returns_option (session : option widget_value) (candidates : list date) :
  in_range session ->
  exists sel, selectbox session candidates = Ok sel /\
              forall d, sel = Some d -> In d candidates.
Proof.
  intros Hrange. unfold selectbox.
  destruct candidates as [|c cs]; [exists None; split; [reflexivity|discriminate]|].
  destruct session as [w|]; simpl.
  - destruct (bool_decide (shown_options w = c :: cs)) eqn:E; simpl.
    + apply bool_decide_eq_true in E.
      pose proof (Hrange w eq_refl) as Hlt. rewrite E in Hlt.
      destruct (lookup_lt_is_Some_2 (c :: cs) (chosen_index w) Hlt) as [d Hd].
      rewrite Hd. exists (Some d). split; [reflexivity|].
      intros d' [= <-]. apply (proj1 (list_elem_of_In (c :: cs) d)).
      by eapply list_elem_of_lookup_2.
    + exists (Some c). split; [reflexivity|]. intros d [= <-]. by left.
  - exists (Some c). split; [reflexivity|]. intros d [= <-]. by left.
Qed.

Lemma dates_in_month_NoDup (T : table score) (s e : date) :
  NoDup (dates T) -> NoDup (dates_in_month T s e).
Proof.
  rewrite dates_in_month_filter. generalize (dates T). intros l.
  induction 1 as [|a l Ha Hl IH]; simpl; [constructor|].
  destruct (in_window s e a); [|exact IH].
  constructor; [|exact IH].
  rewrite list_elem_of_In, filter_In. rewrite list_elem_of_In in Ha. tauto.
Qed.

(** Whatever the user picked, a run over the same table and month plots the
    same line. *)
Lemma run_forecast_same_chart (mean smax smin : list score -> score)
    (T : table score) (view_date : date) (session1 session2 : option widget_value) :
  NoDup (dates T) -> in_range session1 -> in_range session2 ->
  chart_data (run_forecast mean smax smin (Some T) view_date session1) =
  chart_data (run_forecast mean smax smin (Some T) view_date session2).
Proof.
  intros Hnd Hr1 Hr2. unfold run_forecast.
  set (candidates := dates_in_month T (start_of_month view_date) (end_of_month view_date)).
  destruct (selectbox_returns_option session1 candidates Hr1) as (sel1 & E1 & Hs1).
  destruct (selectbox_returns_option session2 candidates Hr2) as (sel2 & E2 & Hs2).
  rewrite E1, E2. unfold bind.
  assert (Hincl : forall d, In d candidates -> In d (dates T)).
  { intros d. unfold candidates. rewrite dates_in_month_filter, filter_In. tauto. }
  destruct (decide (candidates = [])) as [E|Hne]; [by rewrite E|].
  destruct (forecast_section_metrics mean smax smin T candidates Hnd Hincl)
    as (F & _ & _ & Hsec).
  assert (HndC : NoDup candidates) by (by apply dates_in_month_NoDup).
  destruct (Hsec sel1 HndC Hs1 Hne) as [m1 ->].
  destruct (Hsec sel2 HndC Hs2 Hne) as [m2 ->].
  reflexivity.
Qed.

End SelectorProperties.

(** ** The historical risk explorer *)

Section ExplorerProperties.
Context {score : Type}.
Implicit Types (data : data_dict score) (files : disk score).

Lemma resolve_skip data (option key : string) (rest : list string) :
  (mapper : gmap string string) !! option = Some key ->
  hist data !! key = None ->
  resolve data (option :: rest) = resolve data rest.
Proof. intros Hm Hk. simpl. by rewrite Hm, Hk. Qed.

Lemma resolve_app data (pre post post' : list string) :
  resolve data post = resolve data post' ->
  resolve data (pre ++ post) = resolve data (pre ++ post').
Proof.
  intros E. induction pre as [|o pre IH]; simpl; [exact E|].
  destruct (mapper !! o) as [key|]; [|reflexivity].
  destruct (hist data !! key); [|exact IH].
  by rewrite IH.
Qed.

Lemma load_data_hist_30d files :
  rolling_vol_csv files !! "rolling_vol_30d.csv" = None ->
  hist (load_data files) !! "hist_30d" = None.
Proof.
  intros Hmissing. unfold load_data, windows. simpl.
  change (pretty 7%N) with "7". change (pretty 30%N) with "30".
  change (pretty 90%N) with "90". change (pretty 250%N) with "250".
  cbv [String.append]. rewrite Hmissing.
  repeat match goal with
         | |- context [rolling_vol_csv files !! ?k] =>
             destruct (rolling_vol_csv files !! k)
         end;
    by simplify_map_eq.
Qed.

(** C6. A selected label whose table was never loaded is skipped, as if it
    had not been selected, and raises nothing; a selection of such labels
    only resolves to no series. With the 30-day file missing, the selection
    of "30-Day (Monthly)" alone gives a chart with no line and no error,
    whatever other tables are present. *)
Theorem resolve_omits_unloaded data :
  (forall (pre post : list string) (option key : string),
     (mapper : gmap string string) !! option = Some key ->
     hist data !! key = None ->
     resolve data (pre ++ option :: post) = resolve data (pre ++ post)) /\
  (forall historical_options : list string,
     (forall option, In option historical_options ->
        exists key, (mapper : gmap string string) !! option = Some key /\
                    hist data !! key = None) ->
     resolve data historical_options = Ok []) /\
  (hist data !! "hist_30d" = None ->
   historical_explorer data ["30-Day (Monthly)"] = Ok (Some [])) /\
  (forall files,
     data = load_data files ->
     rolling_vol_csv files !! "rolling_vol_30d.csv" = None ->
     historical_explorer data ["30-Day (Monthly)"] = Ok (Some [])).
Proof.
  assert (H30 : hist data !! "hist_30d" = None ->
                historical_explorer data ["30-Day (Monthly)"] = Ok (Some [])).
  { intros Hk. unfold historical_explorer.
    rewrite (resolve_skip data "30-Day (Monthly)" "hist_30d" []);
      [reflexivity|reflexivity|exact Hk]. }
  split; [|split; [|split]].
  - intros pre post option key Hm Hk. apply resolve_app.
    by apply (resolve_skip data option key).
  - induction historical_options as [|o rest IH]; intros Hall; [reflexivity|].
    destruct (Hall o) as (key & Hm & Hk); [by left|].
    rewrite (resolve_skip data o key rest Hm Hk). apply IH.
    intros o' Ho'. apply Hall. by right.
  - exact H30.
  - intros files -> Hmissing. apply H30. by apply load_data_hist_30d.
Qed.

End ExplorerProperties.

(** * Worked instances *)

Section Instances.
Local Open Scope Z_scope.

(** C1 as stated fails: Next from December 15 keeps the 15th; it does not
    land on the first day of January. *)
Lemma next_from_december_keeps_day :
  valid_date (mkdate 2025 12 15) = true /\
  nextMonth (mkdate 2025 12 15) = mkdate 2026 1 15 /\
  nextMonth (mkdate 2025 12 15) <> mkdate 2026 1 1 /\
  prevMonth (mkdate 2025 12 15) = mkdate 2025 11 15 /\
  prevMonth (mkdate 2025 12 15) <> mkdate 2025 11 1.
Proof. repeat split; discriminate. Qed.

Lemma month_step_keeps_clipped_day_witness :
  valid_date (mkdate 2025 12 15) = true /\
  nextMonth (mkdate 2025 12 15) = mkdate 2026 1 15 /\
  start_of_month (nextMonth (mkdate 2025 12 15)) = mkdate 2026 1 1.
Proof.
  split; [reflexivity|].
  exact (proj2 (proj2 (proj2 (proj2 (proj2 (proj2 (proj2 (proj2
           (month_step_keeps_clipped_day (mkdate 2025 12 15) eq_refl))))))))
         eq_refl).
Defined.

Lemma monthBounds_first_last_witness :
  valid_date (mkdate 2024 2 10) = true /\
  monthBounds (mkdate 2024 2 10) = (mkdate 2024 2 1, mkdate 2024 2 29) /\
  date_le (mkdate 2024 2 1) (mkdate 2024 2 29).
Proof.
  split; [reflexivity|].
  destruct (monthBounds_first_last (mkdate 2024 2 10) eq_refl)
    as (Hb & _ & _ & _ & _ & _ & Hle).
  split; [exact Hb|exact Hle].
Defined.

Lemma prev_next_restores_month_witness :
  valid_date (mkdate 2025 3 31) = true /\
  year (nextMonth (prevMonth (mkdate 2025 3 31))) = 2025 /\
  month (nextMonth (prevMonth (mkdate 2025 3 31))) = 3.
Proof.
  split; [reflexivity|].
  destruct (prev_next_restores_month (mkdate 2025 3 31) eq_refl) as (Hy & Hm & _).
  split; [exact Hy|exact Hm].
Defined.

Lemma sample_sorted : StronglySorted date_lt (dates Sample.forecast).
Proof. repeat constructor. Defined.

Lemma sample_nodup : NoDup (dates Sample.forecast).
Proof. refine (bool_decide_unpack (NoDup _) _). vm_compute. exact I. Defined.

Lemma dates_in_month_exact_witness :
  StronglySorted date_lt (dates Sample.forecast) /\
  StronglySorted date_lt
    (dates_in_month Sample.forecast (mkdate 2025 2 1) (mkdate 2025 2 28)) /\
  sublist (dates_in_month Sample.forecast (mkdate 2025 2 1) (mkdate 2025 2 28))
    (dates Sample.forecast).
Proof.
  split; [exact sample_sorted|].
  destruct (dates_in_month_exact Sample.forecast (mkdate 2025 2 1) (mkdate 2025 2 28)
              sample_sorted) as (_ & _ & Hsub & Hsorted & _).
  split; [exact Hsorted|exact Hsub].
Defined.

Lemma loc_cell_present_or_KeyError_witness :
  NoDup (dates Sample.forecast) /\
  loc_cell Sample.forecast (mkdate 2025 2 3) = Ok (Scalar 20).
Proof.
  split; [exact sample_nodup|].
  apply (proj1 (loc_cell_present_or_KeyError Sample.forecast (mkdate 2025 2 3)
                  sample_nodup) (mkrow (mkdate 2025 2 3) 20)).
  - simpl. auto.
  - reflexivity.
Defined.

Lemma empty_month_warns_witness :
  dates_in_month Sample.forecast
    (start_of_month (mkdate 2025 7 10)) (end_of_month (mkdate 2025 7 10)) = [] /\
  run_forecast Sample.first_score Sample.first_score Sample.first_score
    (Some Sample.forecast) (mkdate 2025 7 10) None = Ok Warning.
Proof.
  split; [reflexivity|].
  apply (empty_month_warns Sample.first_score Sample.first_score Sample.first_score
           (Some Sample.forecast) (mkdate 2025 7 10) None).
  intros T [= <-]. reflexivity.
Defined.

Lemma selected_day_is_annotation_witness :
  chart_data
    (forecast_section Sample.first_score Sample.first_score Sample.first_score
       (Some Sample.forecast) [mkdate 2025 2 3; mkdate 2025 2 4] None) =
  chart_data
    (forecast_section Sample.first_score Sample.first_score Sample.first_score
       (Some Sample.forecast) [mkdate 2025 2 3; mkdate 2025 2 4]
       (Some (mkdate 2025 2 4))).
Proof.
  apply (selected_day_is_annotation Sample.first_score Sample.first_score
           Sample.first_score Sample.forecast [mkdate 2025 2 3; mkdate 2025 2 4]
           None (Some (mkdate 2025 2 4))).
  - exact sample_nodup.
  - refine (bool_decide_unpack (NoDup _) _). vm_compute. exact I.
  - simpl. intros d [<-|[<-|[]]]; auto 10.
  - intros d [=].
  - intros d [= <-]. simpl. auto.
Defined.

Lemma selectbox_requested_or_first_witness :
  selectbox
    (Some (mkwidget
             (dates_in_month Sample.forecast
                (start_of_month (mkdate 2025 1 30)) (end_of_month (mkdate 2025 1 30)))
             1%nat))
    (dates_in_month Sample.forecast
       (start_of_month (mkdate 2025 2 3)) (end_of_month (mkdate 2025 2 3)))
  = Ok (Some (mkdate 2025 2 3)).
Proof.
  apply (proj1 (proj2 (selectbox_requested_or_first Sample.forecast
                         (mkdate 2025 1 30) (mkdate 2025 2 3) 1%nat (mkdate 2025 1 31)
                         eq_refl eq_refl eq_refl))).
  simpl. intros [H|[H|[H|[]]]]; discriminate H.
Defined.

Lemma resolve_omits_unloaded_witness :
  rolling_vol_csv Sample.files !! "rolling_vol_30d.csv" = None /\
  historical_explorer (load_data Sample.files) ["30-Day (Monthly)"] = Ok (Some []).
Proof.
  split; [reflexivity|].
  apply (proj2 (proj2 (proj2 (resolve_omits_unloaded (load_data Sample.files))))
           Sample.files eq_refl).
  reflexivity.
Defined.

End Instances.

(** * Further properties *)

(** ** Loading and the explorer *)

Section LoadingProperties.
Context {score : Type}.
Implicit Types (data : data_dict score) (files : disk score).

Lemma load_data_lookup files (w : N) :
  In w windows ->
  hist (load_data files) !! ("hist_" +:+ pretty w +:+ "d") =
  rolling_vol_csv files !! ("rolling_vol_" +:+ pretty w +:+ "d.csv").
Proof.
  intros Hw. unfold load_data, windows in *. simpl in *.
  destruct Hw as [<-|[<-|[<-|[<-|[]]]]];
    change (pretty 7%N) with "7"; change (pretty 30%N) with "30";
    change (pretty 90%N) with "90"; change (pretty 250%N) with "250";
    cbv [String.append];
    repeat match goal with
           | |- context [match rolling_vol_csv files !! ?k with _ => _ end] =>
               destruct (rolling_vol_csv files !! k) eqn:?
           end;
    by simplify_map_eq.
Qed.

Lemma load_data_only_windows files (key : string) :
  is_Some (hist (load_data files) !! key) ->
  exists w, In w windows /\ key = "hist_" +:+ pretty w +:+ "d".
Proof.
  unfold load_data, windows. simpl.
  change (pretty 7%N) with "7"; change (pretty 30%N) with "30";
    change (pretty 90%N) with "90"; change (pretty 250%N) with "250".
  cbv [String.append].
  intros [df Hdf].
  repeat match goal with
         | H : context [match rolling_vol_csv files !! ?k with _ => _ end] |- _ =>
             destruct (rolling_vol_csv files !! k)
         end;
    repeat match goal with
           | H : <[_:=_]> _ !! key = Some _ |- _ =>
               apply lookup_insert_Some in H; destruct H as [[<- _]|[_ H]]
           end;
    try (rewrite lookup_empty in Hdf; discriminate).
  all: first [ exists 7%N; split; [simpl; tauto|reflexivity]
             | exists 30%N; split; [simpl; tauto|reflexivity]
             | exists 90%N; split; [simpl; tauto|reflexivity]
             | exists 250%N; split; [simpl; tauto|reflexivity] ].
Qed.

Lemma mapper_cases (option key : string) :
  (mapper : gmap string string) !! option = Some key ->
  (option = "7-Day (Weekly)" /\ key = "hist_7d") \/
  (option = "30-Day (Monthly)" /\ key = "hist_30d") \/
  (option = "90-Day (Quarterly)" /\ key = "hist_90d") \/
  (option = "250-Day (Annual)" /\ key = "hist_250d").
Proof.
  intros H. apply elem_of_list_to_map_2 in H.
  rewrite !elem_of_cons, elem_of_nil in H.
  destruct H as [H|[H|[H|[H|[]]]]]; injection H as -> ->; tauto.
Qed.

Lemma mapper_window (option key : string) :
  (mapper : gmap string string) !! option = Some key ->
  exists w, In w windows /\ key = "hist_" +:+ pretty w +:+ "d" /\
            column_of key = Ok ("RollingVolatility_" +:+ pretty w +:+ "d").
Proof.
  intros H. apply mapper_cases in H.
  destruct H as [[-> ->]|[[-> ->]|[[-> ->]|[-> ->]]]];
    [exists 7%N|exists 30%N|exists 90%N|exists 250%N];
    (split; [simpl; tauto|split; reflexivity]).
Qed.

(** X1. [load_data] copies the disk: the forecast table is the parsed
    forecast file if it exists, each key [hist_<w>d] holds the parsed file
    [rolling_vol_<w>d.csv] exactly when that file exists, and no other key
    is ever created. *)
Theorem load_data_mirrors_disk files :
  forecast (load_data files) = predicted_risk_scores_csv files /\
  (forall w, In w windows ->
     hist (load_data files) !! ("hist_" +:+ pretty w +:+ "d") =
     rolling_vol_csv files !! ("rolling_vol_" +:+ pretty w +:+ "d.csv")) /\
  (forall key, is_Some (hist (load_data files) !! key) ->
     exists w, In w windows /\ key = "hist_" +:+ pretty w +:+ "d").
Proof.
  split; [reflexivity|]. split.
  - intros w Hw. by apply load_data_lookup.
  - apply load_data_only_windows.
Qed.

(** X2. The keys [mapper] sends the four labels to are exactly the keys
    [load_data] can create, one per window, and the column header derived
    from such a key by [split] is [RollingVolatility_<w>d]: the derivation
    never raises [IndexError]. *)
Theorem mapper_keys_are_load_data_keys :
  (forall option key : string,
     (mapper : gmap string string) !! option = Some key ->
     exists w, In w windows /\ key = "hist_" +:+ pretty w +:+ "d" /\
               column_of key = Ok ("RollingVolatility_" +:+ pretty w +:+ "d")) /\
  (forall w, In w windows ->
     exists option : string,
       (mapper : gmap string string) !! option = Some ("hist_" +:+ pretty w +:+ "d")).
Proof.
  split; [apply mapper_window|].
  intros w Hw. simpl in Hw. destruct Hw as [<-|[<-|[<-|[<-|[]]]]].
  - by exists "7-Day (Weekly)".
  - by exists "30-Day (Monthly)".
  - by exists "90-Day (Quarterly)".
  - by exists "250-Day (Annual)".
Qed.

(** One step of the loop, with the column header made explicit. *)
Lemma resolve_cons data (option : string) (rest : list string) :
  resolve data (option :: rest) =
  match (mapper : gmap string string) !! option with
  | None => Raise KeyError
  | Some key =>
      match hist data !! key with
      | None => resolve data rest
      | Some df =>
          if bool_decide (column_of key = Ok (vol_column df))
          then lines <- resolve data rest ;;; Ok (mkseries option (vol_rows df) :: lines)
          else Raise KeyError
      end
  end.
Proof.
  simpl. destruct (mapper !! option) as [key|] eqn:Hm; [|reflexivity].
  destruct (hist data !! key) as [df|]; [|reflexivity].
  destruct (mapper_window option key Hm) as (w & _ & _ & ->). simpl.
  unfold get_column.
  destruct (decide (vol_column df = "RollingVolatility_" +:+ pretty w +:+ "d")) as [E|NE].
  - rewrite bool_decide_eq_true_2 by exact E.
    rewrite bool_decide_eq_true_2 by (by rewrite E). reflexivity.
  - rewrite bool_decide_eq_false_2 by exact NE.
    rewrite bool_decide_eq_false_2; [reflexivity|].
    intros [= E]. by apply NE.
Qed.

(** X3. The loop over the selected options raises nothing but [KeyError],
    and it completes exactly when every selected option is one of the four
    labels and every loaded table it selects has the column header derived
    from its key. *)
Theorem resolve_raises_only_KeyError data (historical_options : list string) :
  (forall e, resolve data historical_options = Raise e -> e = KeyError) /\
  ((exists lines, resolve data historical_options = Ok lines) <->
   forall option, In option historical_options ->
     exists key, (mapper : gmap string string) !! option = Some key /\
       forall df, hist data !! key = Some df -> column_of key = Ok (vol_column df)).
Proof.
  induction historical_options as [|o rest [IHe IHok]].
  - split; [discriminate|]. split; [intros _ o []|intros _; by eexists].
  - rewrite resolve_cons. split.
    + intros e. destruct (mapper !! o) as [key|]; [|by intros [= <-]].
      destruct (hist data !! key) as [df|]; [|apply IHe].
      case_bool_decide; [|by intros [= <-]].
      destruct (resolve data rest) as [lines|e'] eqn:Hr; simpl; [discriminate|].
      intros [= <-]. by apply IHe.
    + split.
      * intros [lines Hl] option [<-|Hin].
        -- destruct (mapper !! o) as [key|]; [|discriminate].
           exists key. split; [reflexivity|]. intros df Hdf. rewrite Hdf in Hl.
           by case_bool_decide.
        -- apply IHok; [|exact Hin].
           destruct (mapper !! o) as [key|]; [|discriminate].
           destruct (hist data !! key) as [df|]; [|by eexists].
           case_bool_decide; [|discriminate].
           destruct (resolve data rest) as [lines'|]; [by eexists|discriminate].
      * intros Hall. destruct (Hall o) as (key & -> & Hcol); [by left|].
        destruct IHok as [_ IHok]. destruct IHok as [lines Hl].
        { intros option Hin. apply Hall. by right. }
        destruct (hist data !! key) as [df|]; [|by eexists].
        rewrite bool_decide_eq_true_2 by (by apply Hcol).
        rewrite Hl. by eexists.
Qed.

(** X4. When the loop completes, the chart has one line per selected option
    whose table is loaded, in the order of the selection, labelled by the
    option, and each line carries all rows of its table: no date filter is
    applied to historical series. *)
Theorem resolve_lines_in_selection_order data (historical_options : list string)
    (lines : list (series score)) :
  resolve data historical_options = Ok lines ->
  map label lines = List.filter (is_loaded data) historical_options /\
  forall l, In l lines ->
    exists key df, (mapper : gmap string string) !! label l = Some key /\
                   hist data !! key = Some df /\ points l = vol_rows df.
Proof.
  revert lines. induction historical_options as [|o rest IH]; intros lines.
  - intros [= <-]. split; [reflexivity|intros l []].
  - rewrite resolve_cons. cbn [List.filter].
    destruct (mapper !! o) as [key|] eqn:Hm; [|discriminate].
    destruct (hist data !! key) as [df|] eqn:Hk.
    + assert (is_loaded data o = true) as ->.
      { unfold is_loaded. rewrite Hm, Hk. apply bool_decide_eq_true_2. by eexists. }
      case_bool_decide; [|discriminate].
      destruct (resolve data rest) as [lines'|] eqn:Hr; simpl; [|discriminate].
      intros [= <-]. destruct (IH lines' eq_refl) as [IH1 IH2].
      split; [simpl; by rewrite IH1|].
      intros l [<-|Hl]; [by exists key, df|by apply IH2].
    + assert (is_loaded data o = false) as ->.
      { unfold is_loaded. rewrite Hm, Hk. apply bool_decide_eq_false_2.
        intros [x Hx]. discriminate. }
      apply IH.
Qed.

(** X5. From disk to chart: for a label of window [w], the explorer draws
    the rows of [rolling_vol_<w>d.csv] under that label when the file exists
    with the column [RollingVolatility_<w>d], draws an empty chart when the
    file is missing, and raises [KeyError] when the file has another column
    header. *)
Theorem explorer_shows_file files (w : N) (option : string) :
  In w windows ->
  (mapper : gmap string string) !! option = Some ("hist_" +:+ pretty w +:+ "d") ->
  historical_explorer (load_data files) [option] =
  match rolling_vol_csv files !! ("rolling_vol_" +:+ pretty w +:+ "d.csv") with
  | None => Ok (Some [])
  | Some df =>
      if bool_decide (vol_column df = "RollingVolatility_" +:+ pretty w +:+ "d")
      then Ok (Some [mkseries option (vol_rows df)])
      else Raise KeyError
  end.
Proof.
  intros Hw Hm. unfold historical_explorer. rewrite resolve_cons, Hm.
  rewrite (load_data_lookup files w Hw).
  destruct (rolling_vol_csv files !! _) as [df|]; [|reflexivity].
  destruct (mapper_window option _ Hm) as (w' & _ & _ & Hcol).
  assert (Hc : column_of ("hist_" +:+ pretty w +:+ "d") =
               Ok ("RollingVolatility_" +:+ pretty w +:+ "d")).
  { simpl in Hw. destruct Hw as [<-|[<-|[<-|[<-|[]]]]]; reflexivity. }
  rewrite Hc.
  destruct (decide (vol_column df = "RollingVolatility_" +:+ pretty w +:+ "d")) as [E|NE].
  - rewrite bool_decide_eq_true_2 by (by rewrite E).
    rewrite bool_decide_eq_true_2 by exact E. reflexivity.
  - rewrite bool_decide_eq_false_2 by (intros [= E]; by apply NE).
    rewrite bool_decide_eq_false_2 by exact NE. reflexivity.
Qed.

End LoadingProperties.

(** ** Sequences of button presses *)

Section PressProperties.
Local Open Scope Z_scope.

Lemma date_eq_fields (a b : date) :
  year a = year b -> month a = month b -> day a = day b -> a = b.
Proof. destruct a, b. simpl. by intros -> -> ->. Qed.

Lemma navigate_facts (prev next : bool) (v : date) :
  valid_date v = true ->
  month_index (navigate prev next v) =
    month_index v + (if next then 1 else 0) - (if prev then 1 else 0) /\
  valid_date (navigate prev next v) = true /\
  day (navigate prev next v) <= day v /\
  (day v <= 28 -> day (navigate prev next v) = day v).
Proof.
  intros Hv. unfold navigate.
  assert (Hstep : forall d, valid_date d = true ->
            (day (nextMonth d) <= day d /\ (day d <= 28 -> day (nextMonth d) = day d)) /\
            (day (prevMonth d) <= day d /\ (day d <= 28 -> day (prevMonth d) = day d))).
  { intros d Hd.
    destruct (nextMonth_facts d Hd) as (_ & Vn & Dn).
    destruct (prevMonth_facts d Hd) as (_ & Vp & Dp).
    apply valid_date_iff in Vn, Vp.
    pose proof (monthrange_bounds (year (nextMonth d)) (month (nextMonth d))).
    pose proof (monthrange_bounds (year (prevMonth d)) (month (prevMonth d))).
    lia. }
  destruct (prevMonth_facts v Hv) as (Ip & Vp & _).
  destruct (Hstep v Hv) as [Sn Sp].
  destruct prev, next.
  - destruct (nextMonth_facts _ Vp) as (In_ & Vn & _).
    destruct (Hstep _ Vp) as [Sn' _]. repeat split; try assumption; lia.
  - repeat split; try assumption; lia.
  - destruct (nextMonth_facts v Hv) as (In_ & Vn & _).
    repeat split; try assumption; lia.
  - repeat split; try assumption; lia.
Qed.

Lemma navigate_all_facts (presses : list (bool * bool)) (v : date) :
  valid_date v = true ->
  month_index (navigate_all presses v) = month_index v + net_months presses /\
  valid_date (navigate_all presses v) = true /\
  day (navigate_all presses v) <= day v /\
  (day v <= 28 -> day (navigate_all presses v) = day v).
Proof.
  revert v. induction presses as [|[p n] ps IH]; intros v Hv.
  - simpl. repeat split; try assumption; lia.
  - destruct (navigate_facts p n v Hv) as (I1 & V1 & D1 & E1).
    destruct (IH _ V1) as (I2 & V2 & D2 & E2).
    unfold navigate_all in *. simpl in *.
    repeat split; try assumption; lia.
Qed.

(** X6. After any sequence of presses the viewed month is the initial month
    moved by the number of Next presses minus the number of Prev presses;
    the date stays valid and its day never grows. Presses that cancel out
    show the same month window again, and twelve more Next than Prev show
    the same month of the following year. *)
Theorem presses_move_by_net_months (presses : list (bool * bool)) (view_date : date) :
  valid_date view_date = true ->
  month_index (navigate_all presses view_date) =
    month_index view_date + net_months presses /\
  valid_date (navigate_all presses view_date) = true /\
  day (navigate_all presses view_date) <= day view_date /\
  (net_months presses = 0 ->
   monthBounds (navigate_all presses view_date) = monthBounds view_date) /\
  (forall k, net_months presses = 12 * k ->
     year (navigate_all presses view_date) = year view_date + k /\
     month (navigate_all presses view_date) = month view_date).
Proof.
  intros Hv. destruct (navigate_all_facts presses view_date Hv) as (I & V & D & _).
  split; [exact I|]. split; [exact V|]. split; [exact D|]. split.
  - intros H0. apply monthBounds_same_month; try assumption;
      apply (month_index_inj _ _ V Hv); lia.
  - intros k Hk. apply valid_date_iff in V, Hv. unfold month_index in I. lia.
Qed.

(** X7. For a date whose day is at most 28 the buttons are exact inverses:
    no press changes the day, so presses that cancel out give back the very
    same date, and Prev undoes Next and Next undoes Prev. *)
Theorem presses_cancel_exactly (presses : list (bool * bool)) (view_date : date) :
  valid_date view_date = true ->
  day view_date <= 28 ->
  day (navigate_all presses view_date) = day view_date /\
  (net_months presses = 0 -> navigate_all presses view_date = view_date) /\
  prevMonth (nextMonth view_date) = view_date /\
  nextMonth (prevMonth view_date) = view_date.
Proof.
  intros Hv H28.
  assert (Hback : forall ps, net_months ps = 0 -> navigate_all ps view_date = view_date).
  { intros ps H0. destruct (navigate_all_facts ps view_date Hv) as (I & V & _ & E).
    destruct (month_index_inj _ _ V Hv) as [Y M]; [lia|].
    apply date_eq_fields; auto. }
  split; [by apply navigate_all_facts|]. split; [apply Hback|]. split.
  - apply (Hback [(false, true); (true, false)]). reflexivity.
  - apply (Hback [(true, false); (false, true)]). reflexivity.
Qed.

(** X8. The month windows tile the calendar: the day after the last day of
    the viewed month is the first day of the month Next leads to, the day
    before its first day is the last day of the month Prev leads to, and no
    valid date lies strictly between one window and the next. *)
Theorem month_windows_are_adjacent (view_date : date) :
  valid_date view_date = true ->
  next_day (end_of_month view_date) = start_of_month (nextMonth view_date) /\
  prev_day (start_of_month view_date) = end_of_month (prevMonth view_date) /\
  forall d, valid_date d = true ->
    date_lt (end_of_month view_date) d ->
    date_le (start_of_month (nextMonth view_date)) d.
Proof.
  intros Hv. pose proof Hv as Hv'. apply valid_date_iff in Hv'. destruct Hv' as [Hm Hd].
  destruct (prevMonth_facts view_date Hv) as (_ & Vp & _).
  apply valid_date_iff in Vp. destruct Vp as [Hmp _].
  rewrite (end_of_month_eq view_date Hm), (end_of_month_eq _ Hmp).
  rewrite (nextMonth_eq view_date Hm), (prevMonth_eq view_date Hm).
  destruct view_date as [y m dd]. simpl in *.
  unfold last_day_of, start_of_month, replace_day, next_day, prev_day. simpl.
  rewrite Z.ltb_irrefl.
  split; [|split].
  - zbool; simpl; try lia; reflexivity.
  - zbool; simpl; try lia; reflexivity.
  - intros d Hvd. apply valid_date_iff in Hvd. destruct Hvd as [Hmd Hdd].
    destruct d as [yd md dday]. simpl in *.
    unfold date_le, date_lt, date_leb, date_ltb. cbn [year month day].
    intros Hlt.
    destruct (Z.eqb_spec m 12) as [->|N12]; cbn [year month day].
    + change (monthrange y 12) with 31 in Hlt.
      assert (md = 12 -> yd = y -> dday <= 31).
      { intros -> ->. change (monthrange y 12) with 31 in Hdd. lia. }
      zbool; cbn [orb andb] in *; try discriminate; try reflexivity; lia.
    + assert (md = m -> yd = y -> dday <= monthrange y m) by (intros -> ->; lia).
      zbool; cbn [orb andb] in *; try discriminate; try reflexivity; lia.
Qed.

End PressProperties.

(** ** Runs of the forecast section *)

Section RunProperties.
Context {score : Type}.
Context (mean smax smin : list score -> score).
Implicit Types (T F : table score) (d : date) (r : row score).
Local Open Scope Z_scope.

Lemma in_month_window (v d : date) :
  valid_date v = true -> valid_date d = true ->
  in_window (start_of_month v) (end_of_month v) d = true <->
  year d = year v /\ month d = month v.
Proof.
  rewrite !valid_date_iff. intros [Hm _] [Hmd Hdd].
  rewrite (end_of_month_eq v Hm), start_of_month_eq.
  unfold first_day_of, last_day_of. split.
  - apply in_window_month.
  - intros [Y M]. unfold in_window, date_leb. cbn [year month day].
    rewrite Y, M in *. rewrite !Z.ltb_irrefl, !Z.eqb_refl. cbn [orb andb].
    apply andb_true_iff. split; apply Z.leb_le; lia.
Qed.

(** X9. The candidates of a run are exactly the dates of the table that lie
    in the calendar month of [view_date]; they depend on the month and year
    of [view_date] only, not on its day. *)
Theorem candidates_are_the_month T (view_date : date) :
  valid_date view_date = true ->
  (forall d, valid_date d = true ->
     (In d (dates_in_month T (start_of_month view_date) (end_of_month view_date)) <->
      In d (dates T) /\ year d = year view_date /\ month d = month view_date)) /\
  (forall v, valid_date v = true ->
     year v = year view_date -> month v = month view_date ->
     dates_in_month T (start_of_month v) (end_of_month v) =
     dates_in_month T (start_of_month view_date) (end_of_month view_date)).
Proof.
  intros Hv. split.
  - intros d Hd. rewrite dates_in_month_filter, filter_In.
    by rewrite (in_month_window view_date d Hv Hd).
  - intros v Hv' Y M.
    pose proof (monthBounds_same_month v view_date Hv' Hv Y M) as E.
    unfold monthBounds in E. apply pair_equal_spec in E. destruct E as [E1 E2].
    by rewrite E1, E2.
Qed.

Lemma loc_labels_rows T (L : list (row score)) :
  NoDup (dates T) -> (forall r, In r L -> In r T) ->
  loc_labels T (map Date L) = Ok L.
Proof.
  intros Hnd. induction L as [|r L IH]; intros Hin; [reflexivity|].
  simpl. rewrite (rows_at_unique T r Hnd) by (apply Hin; by left).
  rewrite IH by (intros x Hx; apply Hin; by right). reflexivity.
Qed.

Lemma loc_labels_mask T (s e : date) :
  NoDup (dates T) ->
  loc_labels T (dates_in_month T s e) =
  Ok (List.filter (fun r => in_window s e (Date r)) T).
Proof.
  intros Hnd. unfold dates_in_month. apply loc_labels_rows; [exact Hnd|].
  intros r Hr. apply filter_In in Hr. tauto.
Qed.

(** X10. On a table with one row per date, selecting the rows again by
    their index labels gives back the masked rows, unchanged and in table
    order: [forecast_df_filtered] is the part of the table in the range. *)
Theorem filtered_frame_is_the_mask T (start_ end_ : date) :
  NoDup (dates T) ->
  loc_labels T (dates_in_month T start_ end_) =
    Ok (List.filter (fun r => in_window start_ end_ (Date r)) T) /\
  forall F, loc_labels T (dates_in_month T start_ end_) = Ok F ->
    dates F = dates_in_month T start_ end_ /\ sublist F T.
Proof.
  intros Hnd. rewrite (loc_labels_mask T start_ end_ Hnd).
  split; [reflexivity|]. intros F [= <-].
  split; [reflexivity|apply filter_sublist].
Qed.

Lemma selectbox_some (session : option widget_value) (candidates : list date) :
  in_range session -> candidates <> [] ->
  exists d, selectbox session candidates = Ok (Some d) /\ In d candidates.
Proof.
  intros Hr Hne.
  destruct (selectbox_returns_option session candidates Hr) as (sel & E & Hsel).
  destruct sel as [d|]; [exists d; auto|].
  exfalso. unfold selectbox in E.
  destruct candidates as [|c cs]; [congruence|].
  destruct ((c :: cs) !! _); discriminate.
Qed.

Lemma run_forecast_rows T (v : date) (session : option widget_value) :
  NoDup (dates T) -> in_range session ->
  month_rows T v <> [] ->
  exists r, In r (month_rows T v) /\
    selectbox session (dates_in_month T (start_of_month v) (end_of_month v))
      = Ok (Some (Date r)) /\
    run_forecast mean smax smin (Some T) v session =
      Ok (Metrics (Some (Date r, RiskScore_Percent r))
            (mean (map RiskScore_Percent (month_rows T v)))
            (smax (map RiskScore_Percent (month_rows T v)))
            (smin (map RiskScore_Percent (month_rows T v)))
            (mkfigure (seriesForPlot (month_rows T v)) (Some (Date r)))).
Proof.
  unfold month_rows. intros Hnd Hr Hne. unfold run_forecast.
  set (s := start_of_month v) in *. set (e := end_of_month v) in *.
  assert (Hc : dates_in_month T s e <> []).
  { unfold dates_in_month. intros E. apply Hne. by apply map_eq_nil in E. }
  destruct (selectbox_some session _ Hr Hc) as (d & -> & Hd).
  unfold dates_in_month in Hd. apply in_map_iff in Hd. destruct Hd as (r & <- & Hin).
  exists r. split; [exact Hin|]. split; [reflexivity|].
  unfold bind, forecast_section.
  destruct (dates_in_month T s e) as [|c cs] eqn:Ec; [congruence|]. rewrite <- Ec.
  unfold forecast_panel. rewrite (loc_labels_mask T s e Hnd). unfold bind.
  rewrite loc_cell_unique; [reflexivity| |exact Hin].
  apply (dates_in_month_NoDup T s e Hnd).
Qed.

(** X11. On a table with one row per date and for a [view_date] that is a
    calendar date, every lookup of the forecast section succeeds: the
    selectbox value, [set_index('Date').loc[...]], the score of the selected
    day and its formatting raise nothing. The section shows the warning
    exactly when no row of the table is in the viewed month; otherwise it
    hands to the metric cards and to the chart the score of the selected
    day, which is a row of that month, the three statistics over exactly the
    scores of that month, and the month's rows as the line with the selected
    day as marker. What Streamlit and matplotlib do with these values when
    drawing is outside the model. *)
Theorem run_forecast_lookups_succeed T (view_date : date) (session : option widget_value) :
  NoDup (dates T) -> in_range session ->
  (month_rows T view_date = [] ->
   run_forecast mean smax smin (Some T) view_date session = Ok Warning) /\
  (month_rows T view_date <> [] ->
   exists r, In r (month_rows T view_date) /\
     run_forecast mean smax smin (Some T) view_date session =
       Ok (Metrics (Some (Date r, RiskScore_Percent r))
             (mean (map RiskScore_Percent (month_rows T view_date)))
             (smax (map RiskScore_Percent (month_rows T view_date)))
             (smin (map RiskScore_Percent (month_rows T view_date)))
             (mkfigure (seriesForPlot (month_rows T view_date)) (Some (Date r))))).
Proof.
  intros Hnd Hr. split.
  - unfold month_rows. intros E. unfold run_forecast, dates_in_month.
    rewrite E. reflexivity.
  - intros Hne. destruct (run_forecast_rows T view_date session Hnd Hr Hne)
      as (r & Hin & _ & Hrun).
    exists r. auto.
Qed.

Lemma fold_date_min_in (l : list date) (a : date) :
  In (fold_left date_min l a) (a :: l).
Proof.
  revert a. induction l as [|b l IH]; intros a; simpl; [by left|].
  destruct (IH (date_min a b)) as [E|Hin]; [|by right; right].
  rewrite <- E. unfold date_min. destruct (date_leb a b); [by left|by right; left].
Qed.

Lemma date_lt_not_le (a b : date) : date_lt a b -> date_le b a -> False.
Proof.
  unfold date_lt, date_le, date_ltb, date_leb. intros Hlt Hle.
  zbool; cbn [orb andb] in *; try discriminate; lia.
Qed.

(** X12. The first run of a session over a non-empty table with one row per
    date never shows the warning: the view starts at the earliest forecast
    date, so its month holds a row, and the run shows the score of the first
    row of that month in table order; on a table sorted by date that row is
    the earliest date itself. *)
Theorem first_run_shows_earliest_month T (now : date) :
  T <> [] ->
  NoDup (dates T) ->
  (forall d, In d (dates T) -> valid_date d = true) ->
  exists v r,
    initial_view_date (Some T) now = Some v /\
    In v (dates T) /\
    (forall d, In d (dates T) -> date_le v d) /\
    In r T /\ year (Date r) = year v /\ month (Date r) = month v /\
    head (month_rows T v) = Some r /\
    run_forecast mean smax smin (Some T) v None =
      Ok (Metrics (Some (Date r, RiskScore_Percent r))
            (mean (map RiskScore_Percent (month_rows T v)))
            (smax (map RiskScore_Percent (month_rows T v)))
            (smin (map RiskScore_Percent (month_rows T v)))
            (mkfigure (seriesForPlot (month_rows T v)) (Some (Date r)))) /\
    (StronglySorted date_lt (dates T) -> Date r = v).
Proof.
  intros Hne Hnd Hvalid. destruct T as [|r0 T']; [congruence|].
  set (T := r0 :: T') in *.
  set (v := fold_left date_min (dates T') (Date r0)).
  assert (Hv_in : In v (dates T)) by apply fold_date_min_in.
  assert (Hv_min : forall d, In d (dates T) -> date_le v d).
  { intros d Hd. by apply (series_min_le (dates T)). }
  assert (Hv : valid_date v = true) by (by apply Hvalid).
  assert (Hrows : month_rows T v <> []).
  { unfold dates in Hv_in. apply in_map_iff in Hv_in. destruct Hv_in as (rv & Erv & Hrv).
    intros E. assert (Hin : In rv (month_rows T v)).
    { apply filter_In. split; [exact Hrv|]. rewrite Erv.
      by apply (in_month_window v v Hv Hv). }
    rewrite E in Hin. exact Hin. }
  assert (Hnone : in_range None) by (intros w Hw; discriminate).
  destruct (run_forecast_rows T v None Hnd Hnone Hrows) as (r & Hr & Hsel & Hrun).
  exists v, r.
  pose proof Hr as Hr'. apply filter_In in Hr'. destruct Hr' as [HrT Hwin].
  assert (Hvr : valid_date (Date r) = true).
  { apply Hvalid. unfold dates. by apply in_map. }
  apply (in_month_window v (Date r) Hv Hvr) in Hwin. destruct Hwin as [Y M].
  assert (Hhead : head (month_rows T v) = Some r).
  { pose proof Hsel as Hsel'. rewrite selectbox_fresh in Hsel'.
    unfold dates_in_month in Hsel'. fold (month_rows T v) in Hsel'.
    destruct (month_rows T v) as [|r' rows] eqn:Erows; [discriminate Hsel'|].
    simpl in Hsel'. injection Hsel' as Hd. simpl. f_equal.
    assert (Hr'T : In r' T).
    { assert (Hin' : In r' (month_rows T v)) by (rewrite Erows; by left).
      apply filter_In in Hin'. tauto. }
    pose proof (rows_at_unique T r' Hnd Hr'T) as E1.
    pose proof (rows_at_unique T r Hnd HrT) as E2.
    rewrite Hd, E2 in E1. by injection E1. }
  repeat (split; [assumption || reflexivity|]).
  intros Hsorted.
  assert (Ev : v = Date r0).
  { destruct Hv_in as [E|Hin]; [by rewrite E|].
    exfalso. apply StronglySorted_inv in Hsorted. destruct Hsorted as [_ Hall].
    rewrite List.Forall_forall in Hall.
    apply (date_lt_not_le (Date r0) v); [by apply Hall|].
    apply Hv_min. by left. }
  rewrite selectbox_fresh in Hsel. unfold dates_in_month in Hsel.
  simpl in Hsel. rewrite <- Ev in Hsel.
  rewrite (proj2 (in_month_window v v Hv Hv)) in Hsel by auto.
  simpl in Hsel. injection Hsel as Hd. rewrite <- Hd. exact (eq_sym Ev).
Qed.

Lemma rows_at_app F1 F2 d : rows_at (F1 ++ F2) d = rows_at F1 d ++ rows_at F2 d.
Proof. unfold rows_at. apply List.filter_app. Qed.

Lemma rows_at_idem T d : rows_at (rows_at T d) d = rows_at T d.
Proof.
  unfold rows_at. apply filter_all. intros r Hr. apply filter_In in Hr. tauto.
Qed.

Lemma loc_labels_keeps_duplicates T (labels : list date) d :
  (forall c, In c labels -> In c (dates T)) -> In d labels ->
  exists F, loc_labels T labels = Ok F /\
            (length (rows_at T d) <= length (rows_at F d))%nat.
Proof.
  induction labels as [|c cs IH]; intros Hall Hd; [destruct Hd|].
  assert (Hc : rows_at T c <> []) by (apply rows_at_present, Hall; by left).
  assert (Hrest : exists F', loc_labels T cs = Ok F' /\
            (In d cs -> (length (rows_at T d) <= length (rows_at F' d))%nat)).
  { destruct (in_dec date_eq_dec d cs) as [Hin|Hout].
    - destruct IH as (F' & HF' & Hlen); [intros x Hx; apply Hall; by right|exact Hin|].
      exists F'. auto.
    - clear IH. assert (Hall' : forall x, In x cs -> In x (dates T))
        by (intros x Hx; apply Hall; by right).
      clear Hall Hd Hc. induction cs as [|x xs IHx].
      + exists []. split; [reflexivity|tauto].
      + destruct IHx as (F' & HF' & _).
        { intros Hin. apply Hout. by right. }
        { intros y Hy. apply Hall'. by right. }
        assert (Hx : rows_at T x <> []) by (apply rows_at_present, Hall'; by left).
        simpl. destruct (rows_at T x) as [|a rs] eqn:Ex; [congruence|].
        rewrite HF'. eexists. split; [reflexivity|]. intros Hin. by destruct Hout. }
  destruct Hrest as (F' & HF' & Hlen).
  simpl. destruct (rows_at T c) as [|a rs] eqn:Ec; [congruence|].
  rewrite HF'. exists ((a :: rs) ++ F'). split; [reflexivity|].
  rewrite rows_at_app, length_app.
  destruct Hd as [->|Hin].
  - rewrite <- Ec, rows_at_idem. lia.
  - specialize (Hlen Hin). lia.
Qed.

(** X13. The one-row-per-date invariant is needed: when the selected day
    occurs more than once in the table, the lookup of its score gives a
    Series, and formatting it for the metric card raises [TypeError]. *)
Theorem duplicate_date_raises_TypeError T (candidates : list date) d :
  (forall c, In c candidates -> In c (dates T)) ->
  In d candidates ->
  (2 <= length (rows_at T d))%nat ->
  forecast_section mean smax smin (Some T) candidates (Some d) = Raise TypeError.
Proof.
  intros Hall Hd Hdup.
  destruct (loc_labels_keeps_duplicates T candidates d Hall Hd) as (F & HF & Hlen).
  destruct candidates as [|c cs]; [destruct Hd|].
  unfold forecast_section, forecast_panel. rewrite HF. unfold bind, loc_cell.
  destruct (rows_at F d) as [|r1 [|r2 rs]]; simpl in Hlen; try lia.
  reflexivity.
Qed.

End RunProperties.

(** ** Day arithmetic and ordinals *)

Section OrdinalProperties.
Local Open Scope Z_scope.

Lemma days_before_year_succ (y : Z) :
  days_before_year (y + 1) = days_before_year y + 365 + (if isleap y then 1 else 0).
Proof.
  unfold days_before_year, isleap. replace (y + 1 - 1) with y by lia.
  zbool; cbn [andb orb negb]; Z.div_mod_to_equations; lia.
Qed.

Lemma month_cases (m : Z) :
  1 <= m <= 12 ->
  m = 1 \/ m = 2 \/ m = 3 \/ m = 4 \/ m = 5 \/ m = 6 \/
  m = 7 \/ m = 8 \/ m = 9 \/ m = 10 \/ m = 11 \/ m = 12.
Proof. lia. Qed.

Lemma days_before_month_succ (y m : Z) :
  1 <= m < 12 ->
  days_before_month y (m + 1) = days_before_month y m + monthrange y m.
Proof.
  intros Hm. unfold days_before_month, monthrange.
  destruct (month_cases m) as [->|[->|[->|[->|[->|[->|[->|[->|[->|[->|[->| ->]]]]]]]]]]];
    try lia; simpl; destruct (isleap y); lia.
Qed.

Lemma days_before_month_last (y : Z) :
  days_before_month y 12 + 31 = 365 + (if isleap y then 1 else 0).
Proof. unfold days_before_month. simpl. destruct (isleap y); lia. Qed.

Lemma next_day_ordinal (d : date) :
  valid_date d = true ->
  valid_date (next_day d) = true /\ toordinal (next_day d) = toordinal d + 1.
Proof.
  rewrite !valid_date_iff. intros [Hm Hd]. unfold next_day, toordinal.
  destruct d as [y m dd]. cbn [year month day] in *.
  destruct (Z.ltb_spec dd (monthrange y m)); cbn [year month day].
  - split; lia.
  - destruct (Z.ltb_spec m 12); cbn [year month day].
    + pose proof (monthrange_bounds y (m + 1)).
      rewrite days_before_month_succ by lia. split; lia.
    + assert (m = 12) as -> by lia.
      change (monthrange y 12) with 31 in *.
      change (monthrange (y + 1) 1) with 31.
      rewrite days_before_year_succ.
      pose proof (days_before_month_last y).
      change (days_before_month (y + 1) 1) with 0. split; lia.
Qed.

Lemma prev_day_ordinal (d : date) :
  valid_date d = true ->
  valid_date (prev_day d) = true /\ toordinal (prev_day d) = toordinal d - 1.
Proof.
  rewrite !valid_date_iff. intros [Hm Hd]. unfold prev_day, toordinal.
  destruct d as [y m dd]. cbn [year month day] in *.
  destruct (Z.ltb_spec 1 dd); cbn [year month day].
  - split; lia.
  - destruct (Z.ltb_spec 1 m); cbn [year month day].
    + pose proof (monthrange_bounds y (m - 1)).
      pose proof (days_before_month_succ y (m - 1)) as E.
      replace (m - 1 + 1) with m in E by lia. split; lia.
    + assert (m = 1) as -> by lia.
      change (monthrange (y - 1) 12) with 31.
      pose proof (days_before_year_succ (y - 1)) as E.
      replace (y - 1 + 1) with y in E by lia.
      pose proof (days_before_month_last (y - 1)).
      change (days_before_month y 1) with 0. split; lia.
Qed.

Lemma days_before_year_mono (y1 y2 : Z) :
  y1 < y2 ->
  days_before_year y1 + 365 + (if isleap y1 then 1 else 0) <= days_before_year y2.
Proof.
  intros Hlt. rewrite <- days_before_year_succ.
  unfold days_before_year. Z.div_mod_to_equations. lia.
Qed.

Lemma day_of_year_bounds (d : date) :
  valid_date d = true ->
  1 <= days_before_month (year d) (month d) + day d
    <= 365 + (if isleap (year d) then 1 else 0).
Proof.
  rewrite valid_date_iff. intros [Hm Hd]. revert Hd.
  unfold days_before_month, monthrange.
  destruct (month_cases (month d) Hm)
    as [->|[->|[->|[->|[->|[->|[->|[->|[->|[->|[->| ->]]]]]]]]]]];
    simpl; destruct (isleap (year d)); lia.
Qed.

Lemma days_before_month_mono (y m1 m2 : Z) :
  1 <= m1 -> m1 < m2 -> m2 <= 12 ->
  days_before_month y m1 + monthrange y m1 <= days_before_month y m2.
Proof.
  intros H1 Hlt H2. unfold days_before_month, monthrange.
  destruct (month_cases m1) as [->|[->|[->|[->|[->|[->|[->|[->|[->|[->|[->| ->]]]]]]]]]]];
    try lia;
    destruct (month_cases m2) as [->|[->|[->|[->|[->|[->|[->|[->|[->|[->|[->| ->]]]]]]]]]]];
    try lia; simpl; destruct (isleap y); lia.
Qed.

Lemma toordinal_lt (a b : date) :
  valid_date a = true -> valid_date b = true ->
  date_lt a b -> toordinal a < toordinal b.
Proof.
  intros Va Vb. pose proof (day_of_year_bounds a Va) as Ba.
  pose proof (day_of_year_bounds b Vb) as Bb.
  apply valid_date_iff in Va, Vb. destruct Va as [Hma Hda], Vb as [Hmb Hdb].
  unfold date_lt, date_ltb, toordinal. intros Hlt.
  destruct (Z.ltb_spec (year a) (year b)) as [Hy|Hy]; cbn [orb] in Hlt.
  - pose proof (days_before_year_mono (year a) (year b) Hy). lia.
  - destruct (Z.eqb_spec (year a) (year b)) as [Ey|Ny]; cbn [andb] in Hlt;
      [|discriminate].
    rewrite Ey in *.
    destruct (Z.ltb_spec (month a) (month b)) as [Hmlt|Hmge]; cbn [orb] in Hlt.
    + pose proof (days_before_month_mono (year b) (month a) (month b)). lia.
    + destruct (Z.eqb_spec (month a) (month b)) as [Em|Nm]; cbn [andb] in Hlt;
        [|discriminate].
      rewrite Em. apply Z.ltb_lt in Hlt. lia.
Qed.

(** X14. The day arithmetic behind [end_of_month] is ordinal arithmetic:
    adding [n] days to a valid date gives a valid date whose proleptic
    Gregorian ordinal is [n] larger ([n] may be negative), and the ordinal
    orders valid dates as the comparison of dates does, so that date is the
    only one. *)
Theorem add_days_moves_ordinal (d : date) (n : Z) :
  valid_date d = true ->
  valid_date (add_days d n) = true /\
  toordinal (add_days d n) = toordinal d + n /\
  (forall a b, valid_date a = true -> valid_date b = true ->
     (date_lt a b <-> toordinal a < toordinal b)) /\
  (forall d', valid_date d' = true -> toordinal d' = toordinal d + n ->
     d' = add_days d n).
Proof.
  intros Hv.
  assert (Hord : forall a b, valid_date a = true -> valid_date b = true ->
            (date_lt a b <-> toordinal a < toordinal b)).
  { intros a b Va Vb. split; [by apply toordinal_lt|].
    intros Hlt. destruct (date_ltb a b) eqn:E; [exact E|].
    destruct (decide (a = b)) as [->|Hne]; [lia|].
    assert (Hba : date_lt b a).
    { unfold date_lt. revert E Hne. destruct a, b. unfold date_ltb.
      cbn [year month day]. intros E Hne.
      assert (~ (year0 = year1 /\ month0 = month1 /\ day0 = day1))
        by (intros (-> & -> & ->); by apply Hne).
      zbool; cbn [orb andb] in *; try discriminate; try reflexivity; lia. }
    pose proof (toordinal_lt b a Vb Va Hba). lia. }
  assert (Hmove : valid_date (add_days d n) = true /\
                  toordinal (add_days d n) = toordinal d + n);
    [|destruct Hmove as [V E]; split; [exact V|]; split; [exact E|]; split;
      [exact Hord|]].
  2: { intros d' Vd' Ed'.
       destruct (date_ltb d' (add_days d n)) eqn:L1.
       - apply (Hord _ _ Vd' V) in L1. lia.
       - destruct (date_ltb (add_days d n) d') eqn:L2.
         + apply (Hord _ _ V Vd') in L2. lia.
         + revert L1 L2. destruct d', (add_days d n). unfold date_ltb.
           cbn [year month day]. intros L1 L2.
           zbool; cbn [orb andb] in *; try discriminate; f_equal; lia. }
  destruct n as [|p|p]; simpl.
  - split; [exact Hv|lia].
  - induction p as [|p IH] using Pos.peano_ind.
    + simpl. apply (next_day_ordinal d Hv).
    + rewrite Pos.iter_succ. destruct IH as [V E].
      destruct (next_day_ordinal _ V) as [V' E']. split; [exact V'|lia].
  - induction p as [|p IH] using Pos.peano_ind.
    + simpl. apply (prev_day_ordinal d Hv).
    + rewrite Pos.iter_succ. destruct IH as [V E].
      destruct (prev_day_ordinal _ V) as [V' E']. split; [exact V'|lia].
Qed.

End OrdinalProperties.

(** * Further worked instances *)

Section MoreInstances.
Local Open Scope Z_scope.

Lemma load_data_mirrors_disk_witness :
  In 7%N windows /\
  hist (load_data Sample.files) !! "hist_7d" =
    Some (mkvol "RollingVolatility_7d" [(mkdate 2025 1 30, 3)]).
Proof.
  assert (H7 : In 7%N windows) by (simpl; tauto).
  split; [exact H7|].
  exact (proj1 (proj2 (load_data_mirrors_disk Sample.files)) 7%N H7).
Defined.

Lemma mapper_keys_are_load_data_keys_witness :
  (mapper : gmap string string) !! "30-Day (Monthly)" = Some "hist_30d" /\
  exists w, In w windows /\ "hist_30d" = "hist_" +:+ pretty w +:+ "d" /\
            column_of "hist_30d" = Ok ("RollingVolatility_" +:+ pretty w +:+ "d").
Proof.
  split; [reflexivity|].
  exact (proj1 mapper_keys_are_load_data_keys "30-Day (Monthly)" "hist_30d" eq_refl).
Defined.

Lemma resolve_raises_only_KeyError_witness :
  resolve Sample2.misnamed ["7-Day (Weekly)"] = Raise KeyError /\
  KeyError = KeyError.
Proof.
  split; [reflexivity|].
  exact (proj1 (resolve_raises_only_KeyError Sample2.misnamed ["7-Day (Weekly)"])
           KeyError eq_refl).
Defined.

Lemma resolve_lines_in_selection_order_witness :
  resolve (load_data Sample.files)
    ["90-Day (Quarterly)"; "30-Day (Monthly)"; "7-Day (Weekly)"] =
    Ok [ mkseries "90-Day (Quarterly)" [(mkdate 2025 1 30, 5)];
         mkseries "7-Day (Weekly)" [(mkdate 2025 1 30, 3)] ] /\
  map label
    [ mkseries "90-Day (Quarterly)" [(mkdate 2025 1 30, 5)];
      mkseries "7-Day (Weekly)" [(mkdate 2025 1 30, 3)] ] =
  List.filter (is_loaded (load_data Sample.files))
    ["90-Day (Quarterly)"; "30-Day (Monthly)"; "7-Day (Weekly)"].
Proof.
  assert (E : resolve (load_data Sample.files)
                ["90-Day (Quarterly)"; "30-Day (Monthly)"; "7-Day (Weekly)"] =
              Ok [ mkseries "90-Day (Quarterly)" [(mkdate 2025 1 30, 5)];
                   mkseries "7-Day (Weekly)" [(mkdate 2025 1 30, 3)] ])
    by reflexivity.
  split; [exact E|].
  exact (proj1 (resolve_lines_in_selection_order _ _ _ E)).
Defined.

Lemma explorer_shows_file_witness :
  In 7%N windows /\
  (mapper : gmap string string) !! "7-Day (Weekly)" = Some "hist_7d" /\
  historical_explorer (load_data Sample.files) ["7-Day (Weekly)"] =
    Ok (Some [mkseries "7-Day (Weekly)" [(mkdate 2025 1 30, 3)]]).
Proof.
  assert (H7 : In 7%N windows) by (simpl; tauto).
  split; [exact H7|]. split; [reflexivity|].
  exact (explorer_shows_file Sample.files 7%N "7-Day (Weekly)" H7 eq_refl).
Defined.

Lemma presses_move_by_net_months_witness :
  valid_date (mkdate 2025 1 31) = true /\
  month_index (navigate_all [(false, true); (false, true); (true, false)]
                 (mkdate 2025 1 31)) =
  month_index (mkdate 2025 1 31) + 1.
Proof.
  split; [reflexivity|].
  exact (proj1 (presses_move_by_net_months
                  [(false, true); (false, true); (true, false)]
                  (mkdate 2025 1 31) eq_refl)).
Defined.

Lemma presses_cancel_exactly_witness :
  valid_date (mkdate 2025 1 15) = true /\ 15 <= 28 /\
  prevMonth (nextMonth (mkdate 2025 1 15)) = mkdate 2025 1 15.
Proof.
  assert (H : 15 <= 28) by lia.
  split; [reflexivity|]. split; [exact H|].
  exact (proj1 (proj2 (proj2 (presses_cancel_exactly [] (mkdate 2025 1 15) eq_refl H)))).
Defined.

Lemma month_windows_are_adjacent_witness :
  valid_date (mkdate 2024 2 10) = true /\
  next_day (end_of_month (mkdate 2024 2 10)) = mkdate 2024 3 1.
Proof.
  split; [reflexivity|].
  exact (proj1 (month_windows_are_adjacent (mkdate 2024 2 10) eq_refl)).
Defined.

Lemma candidates_are_the_month_witness :
  valid_date (mkdate 2025 2 10) = true /\
  (In (mkdate 2025 2 3)
      (dates_in_month Sample.forecast
         (start_of_month (mkdate 2025 2 10)) (end_of_month (mkdate 2025 2 10))) <->
   In (mkdate 2025 2 3) (dates Sample.forecast) /\
   year (mkdate 2025 2 3) = 2025 /\ month (mkdate 2025 2 3) = 2).
Proof.
  split; [reflexivity|].
  exact (proj1 (candidates_are_the_month Sample.forecast (mkdate 2025 2 10) eq_refl)
           (mkdate 2025 2 3) eq_refl).
Defined.

Lemma filtered_frame_is_the_mask_witness :
  NoDup (dates Sample.forecast) /\
  loc_labels Sample.forecast
    (dates_in_month Sample.forecast (mkdate 2025 2 1) (mkdate 2025 2 28)) =
  Ok [ mkrow (mkdate 2025 2 3) 20; mkrow (mkdate 2025 2 4) 25;
       mkrow (mkdate 2025 2 28) 40 ].
Proof.
  split; [exact sample_nodup|].
  exact (proj1 (filtered_frame_is_the_mask Sample.forecast
                  (mkdate 2025 2 1) (mkdate 2025 2 28) sample_nodup)).
Defined.

Lemma in_range_None : in_range None.
Proof. intros w Hw. discriminate Hw. Defined.

Lemma run_forecast_lookups_succeed_witness :
  NoDup (dates Sample.forecast) /\ in_range None /\
  run_forecast Sample.first_score Sample.first_score Sample.first_score
    (Some Sample.forecast) (mkdate 2025 7 10) None = Ok Warning.
Proof.
  split; [exact sample_nodup|]. split; [exact in_range_None|].
  exact (proj1 (run_forecast_lookups_succeed Sample.first_score Sample.first_score
                  Sample.first_score Sample.forecast (mkdate 2025 7 10) None
                  sample_nodup in_range_None) eq_refl).
Defined.

Lemma first_run_shows_earliest_month_witness :
  Sample.forecast <> [] /\
  NoDup (dates Sample.forecast) /\
  exists v r,
    initial_view_date (Some Sample.forecast) (mkdate 2026 11 3) = Some v /\
    In v (dates Sample.forecast) /\
    (forall d, In d (dates Sample.forecast) -> date_le v d) /\
    In r Sample.forecast /\ year (Date r) = year v /\ month (Date r) = month v /\
    head (month_rows Sample.forecast v) = Some r /\
    run_forecast Sample.first_score Sample.first_score Sample.first_score
      (Some Sample.forecast) v None =
      Ok (Metrics (Some (Date r, RiskScore_Percent r))
            (Sample.first_score (map RiskScore_Percent (month_rows Sample.forecast v)))
            (Sample.first_score (map RiskScore_Percent (month_rows Sample.forecast v)))
            (Sample.first_score (map RiskScore_Percent (month_rows Sample.forecast v)))
            (mkfigure (seriesForPlot (month_rows Sample.forecast v)) (Some (Date r)))) /\
    (StronglySorted date_lt (dates Sample.forecast) -> Date r = v).
Proof.
  assert (Hne : Sample.forecast <> []) by discriminate.
  split; [exact Hne|]. split; [exact sample_nodup|].
  apply (first_run_shows_earliest_month Sample.first_score Sample.first_score
           Sample.first_score Sample.forecast (mkdate 2026 11 3) Hne sample_nodup).
  simpl. intros d [<-|[<-|[<-|[<-|[<-|[]]]]]]; reflexivity.
Defined.

Lemma duplicate_date_raises_TypeError_witness :
  (2 <= length (rows_at Sample2.duplicated (mkdate 2025 2 3)))%nat /\
  forecast_section Sample.first_score Sample.first_score Sample.first_score
    (Some Sample2.duplicated)
    (dates_in_month Sample2.duplicated (mkdate 2025 2 1) (mkdate 2025 2 28))
    (Some (mkdate 2025 2 3)) = Raise TypeError.
Proof.
  assert (H2 : (2 <= length (rows_at Sample2.duplicated (mkdate 2025 2 3)))%nat)
    by (simpl; lia).
  split; [exact H2|].
  apply (duplicate_date_raises_TypeError Sample.first_score Sample.first_score
           Sample.first_score Sample2.duplicated _ (mkdate 2025 2 3)).
  - simpl. intros c [<-|[<-|[<-|[]]]]; auto.
  - simpl. auto.
  - exact H2.
Defined.

Lemma add_days_moves_ordinal_witness :
  valid_date (mkdate 2024 3 1) = true /\
  add_days (mkdate 2024 3 1) (-1) = mkdate 2024 2 29 /\
  toordinal (add_days (mkdate 2024 3 1) (-1)) = toordinal (mkdate 2024 3 1) + -1.
Proof.
  split; [reflexivity|]. split; [reflexivity|].
  exact (proj1 (proj2 (add_days_moves_ordinal (mkdate 2024 3 1) (-1) eq_refl))).
Defined.

End MoreInstances.

(** ** The monthly statistics *)

Section StatsProperties.
Local Open Scope Z_scope.























End StatsProperties.
